(** * Algorithm Complexity Checker: the pipeline of [main.py]

    A shallow embedding of [cli], [complexity_phase], [regression_phase],
    [predict_phase] and [verbose], with the numpy and Python routines they
    call.

    Number model.  Python and numpy integers are [Z]; the [int64] results of
    [np.power] on integers are wrapped explicitly ([wrap64]).  A [float64] is
    an exact real or one of the IEEE special values ([fl]): division by zero,
    the logarithm outside its domain and the overflow of a power of two give
    infinities and NaN as numpy does.  Rounding and the overflow of a finite
    sum, product or quotient are not represented: what is proved of a
    computed number holds of the [float64] program as far as no rounding
    decides it.  Sizes are integers that fit [int64], durations are finite.

    Outside the repository: [scipy.optimize.curve_fit] and the builtins [int]
    and [float] are parameters of the pipeline; [np.linspace], [np.interp],
    [np.min], [np.max], [np.sum], [np.arange], [min] and [str.split] are
    modelled by what they compute.  [np.linspace] with an integer [dtype]
    rounds down: a grid point is the floor of the exact quotient here, which
    numpy's [float64] product can miss by one.  [np.interp] does not sort
    its sample points; its search is numpy's: a scan on four sample points
    or fewer, on longer arrays the neighbours of the index found for the
    point before, then a bisection. *)

From Stdlib Require Import ZArith List String Ascii Bool Reals Lra Lia.
From Stdlib Require Import Permutation Sorted.
Import ListNotations.

Local Open Scope Z_scope.

(** ** Exceptions and results *)

Inductive exception : Type :=
| ValueError
| TypeError
| KeyError
| IndexError
| RuntimeError.

Inductive result (A : Type) : Type :=
| Ok (a : A)
| Raise (e : exception).

Arguments Ok {A} a.
Arguments Raise {A} e.

(** ** Floating-point values *)

Module Ieee.

Inductive fl : Type :=
| Fin (r : R)
| PInf
| NInf
| NaN.

Definition Rltb (a b : R) : bool := if Rlt_dec a b then true else false.
Definition Reqb (a b : R) : bool := if Req_dec_T a b then true else false.

Definition of_Z (z : Z) : fl := Fin (IZR z).

Definition fneg (a : fl) : fl :=
  match a with
  | Fin r => Fin (- r)
  | PInf => NInf
  | NInf => PInf
  | NaN => NaN
  end.

Definition fadd (a b : fl) : fl :=
  match a, b with
  | NaN, _ | _, NaN => NaN
  | Fin x, Fin y => Fin (x + y)
  | PInf, NInf | NInf, PInf => NaN
  | PInf, _ | _, PInf => PInf
  | NInf, _ | _, NInf => NInf
  end.

Definition fsub (a b : fl) : fl := fadd a (fneg b).

(** The sign of an infinite product or quotient; zero counts as positive,
    the sign every zero divisor of this program has. *)
Definition signed_inf (negative : bool) : fl := if negative then NInf else PInf.

Definition fmul (a b : fl) : fl :=
  match a, b with
  | NaN, _ | _, NaN => NaN
  | Fin x, Fin y => Fin (x * y)
  | Fin x, PInf | PInf, Fin x =>
      if Reqb x 0 then NaN else signed_inf (Rltb x 0)
  | Fin x, NInf | NInf, Fin x =>
      if Reqb x 0 then NaN else signed_inf (negb (Rltb x 0))
  | PInf, PInf | NInf, NInf => PInf
  | PInf, NInf | NInf, PInf => NInf
  end.

Definition fdiv (a b : fl) : fl :=
  match a, b with
  | NaN, _ | _, NaN => NaN
  | Fin x, Fin y =>
      if Reqb y 0
      then (if Reqb x 0 then NaN else signed_inf (Rltb x 0))
      else Fin (x / y)
  | Fin _, PInf | Fin _, NInf => Fin 0
  | PInf, Fin y => signed_inf (Rltb y 0)
  | NInf, Fin y => signed_inf (negb (Rltb y 0))
  | _, _ => NaN
  end.

(** [a < b] on floats: false as soon as one side is NaN. *)
Definition flt (a b : fl) : bool :=
  match a, b with
  | NaN, _ | _, NaN => false
  | Fin x, Fin y => Rltb x y
  | NInf, NInf => false
  | NInf, _ => true
  | _, PInf => match a with PInf => false | _ => true end
  | _, _ => false
  end.

(** [np.log2] of an integer *)
Definition log2 (v : Z) : fl :=
  if 0 <? v then Fin (ln (IZR v) / ln 2)
  else if v =? 0 then NInf else NaN.

(** Two to an integer power in [float64]: 2^1024 is past the largest
    double. *)
Definition pow2 (v : Z) : fl :=
  if v <? 1024 then Fin (powerRZ 2 v) else PInf.

Definition is_fin (a : fl) : bool :=
  match a with Fin _ => true | _ => false end.

Definition is_nan (a : fl) : bool :=
  match a with NaN => true | _ => false end.

End Ieee.
Import Ieee.

(** ** Integers of numpy *)

Definition wrap64 (z : Z) : Z := (z + 2 ^ 63) mod 2 ^ 64 - 2 ^ 63.

(** [np.power(v, k)] on [int64] *)
Definition np_power_int (v : Z) (k : Z) : Z := wrap64 (v ^ k).

(** ** numpy routines used by [complexity_phase] *)

(** [np.min] / [np.max] of an integer array; an empty array raises. *)
Definition np_min_Z (l : list Z) : result Z :=
  match l with
  | [] => Raise ValueError
  | a :: t => Ok (fold_left Z.min t a)
  end.

Definition np_max_Z (l : list Z) : result Z :=
  match l with
  | [] => Raise ValueError
  | a :: t => Ok (fold_left Z.max t a)
  end.

(** [np.min] / [np.max] of a float array and the builtin [min] over one. *)
Definition np_min_R (l : list R) : result R :=
  match l with
  | [] => Raise ValueError
  | a :: t => Ok (fold_left Rmin t a)
  end.

Definition np_max_R (l : list R) : result R :=
  match l with
  | [] => Raise ValueError
  | a :: t => Ok (fold_left Rmax t a)
  end.

(** [np.arange(lo, lo + n)] *)
Fixpoint arange_from (lo : Z) (n : nat) : list Z :=
  match n with
  | O => []
  | S n' => lo :: arange_from (lo + 1) n'
  end.

Definition np_arange (lo hi : Z) : list Z := arange_from lo (Z.to_nat (hi - lo)).

(** [np.linspace(start, stop, num, dtype=int)]: [num] evenly spaced values
    from [start] to [stop], each rounded down to an integer. *)
Definition np_linspace_int (start stop num : Z) : result (list Z) :=
  if num <? 0 then Raise ValueError
  else if num =? 1 then Ok [start]
  else Ok (map (fun i => start + (i * (stop - start)) / (num - 1))
               (np_arange 0 num)).

(** ** The segment search of [np.interp] *)

(** [arr[i]] *)
Definition item (arr : list Z) (i : Z) : Z := nth (Z.to_nat i) arr 0.

(** numpy's [linear_search(key, arr, len, i0)], over the items from [i0]
    on: it stops at the first item above the key. *)
Fixpoint linear_search (key : Z) (rest : list Z) (i : Z) : Z :=
  match rest with
  | [] => i - 1
  | a :: rest' => if key >=? a then linear_search key rest' (i + 1) else i - 1
  end.

Definition LIKELY_IN_CACHE_SIZE : Z := 8.

(** The bisection that ends [binary_search_with_guess]; its loop runs at
    most [imax - imin] times. *)
Fixpoint bisect (fuel : nat) (key : Z) (arr : list Z) (imin imax : Z) : Z :=
  match fuel with
  | O => imin - 1
  | S fuel' =>
      if imin <? imax then
        let imid := imin + Z.shiftr (imax - imin) 1 in
        if key >=? item arr imid then bisect fuel' key arr (imid + 1) imax
        else bisect fuel' key arr imin imid
      else imin - 1
  end.

(** numpy's [binary_search_with_guess(key, arr, len, guess)]: [len] past
    the last item, [-1] before the first, else an index found by a scan on
    arrays of four items or fewer, and around the guess or by bisection on
    longer ones. *)
Definition binary_search_with_guess (key : Z) (arr : list Z) (guess : Z) : Z :=
  let len := Z.of_nat (List.length arr) in
  if key >? item arr (len - 1) then len
  else if key <? item arr 0 then -1
  else if len <=? 4 then linear_search key (tl arr) 1
  else
    let guess := if guess >? len - 3 then len - 3 else guess in
    let guess := if guess <? 1 then 1 else guess in
    if key <? item arr guess then
      if key <? item arr (guess - 1) then
        let imax := guess - 1 in
        let imin :=
          if (guess >? LIKELY_IN_CACHE_SIZE)
             && (key >=? item arr (guess - LIKELY_IN_CACHE_SIZE))
          then guess - LIKELY_IN_CACHE_SIZE else 0 in
        bisect (Z.to_nat (imax - imin)) key arr imin imax
      else guess - 1
    else if key <? item arr (guess + 1) then guess
    else if key <? item arr (guess + 2) then guess + 1
    else
      let imin := guess + 2 in
      let imax :=
        if (guess <? len - LIKELY_IN_CACHE_SIZE - 1)
           && (key <? item arr (guess + LIKELY_IN_CACHE_SIZE))
        then guess + LIKELY_IN_CACHE_SIZE else len in
      bisect (Z.to_nat (imax - imin)) key arr imin imax.

(** The value [np.interp] stores for [key] once the search has returned
    [j]; [left] and [right] default to the first and the last of [fp].
    numpy computes the value again from the other end of the segment when
    it comes out NaN, which it never does on finite durations with exact
    arithmetic. *)
Definition interp_at (xp : list Z) (fp : list R) (j key : Z) : R :=
  let lenxp := Z.of_nat (List.length xp) in
  let lval := nth 0 fp 0%R in
  let rval := last fp 0%R in
  if j =? -1 then lval
  else if j =? lenxp then rval
  else if j =? lenxp - 1 then nth (Z.to_nat j) fp 0%R
  else if item xp j =? key then nth (Z.to_nat j) fp 0%R
  else
    let slope :=
      ((nth (Z.to_nat (j + 1)) fp 0 - nth (Z.to_nat j) fp 0)
       / (IZR (item xp (j + 1)) - IZR (item xp j)))%R in
    (slope * (IZR key - IZR (item xp j)) + nth (Z.to_nat j) fp 0)%R.

(** The loop of [np.interp] over the points [x]: each search starts from
    the index the search before it returned. *)
Fixpoint interp_loop (xp : list Z) (fp : list R) (j : Z) (x : list Z) : list R :=
  match x with
  | [] => []
  | key :: rest =>
      let j' := binary_search_with_guess key xp j in
      interp_at xp fp j' key :: interp_loop xp fp j' rest
  end.

(** The two branches of [np.interp]: a single sample point needs no
    search. *)
Definition interp_all (xp : list Z) (fp : list R) (x : list Z) : list R :=
  match xp with
  | [xp_val] =>
      let fp_val := nth 0 fp 0%R in
      let lval := nth 0 fp 0%R in
      let rval := last fp 0%R in
      map (fun key =>
             if key <? xp_val then lval else if key >? xp_val then rval else fp_val)
          x
  | _ => interp_loop xp fp 0 x
  end.

(** [np.interp(x, xp, fp)] *)
Definition np_interp (x : list Z) (xp : list Z) (fp : list R) : result (list R) :=
  match xp with
  | [] => Raise ValueError
  | _ =>
      if negb (List.length xp =? List.length fp)%nat then Raise ValueError
      else Ok (interp_all xp fp x)
  end.

(** [np.sum] *)
Definition np_sum (l : list fl) : fl := fold_left fadd l (Fin 0).

(** The builtin [min(y)] over an array: the first element no later one is
    strictly below. *)
Definition py_min_R (l : list R) : result R :=
  match l with
  | [] => Raise ValueError
  | a :: t => Ok (fold_left (fun best item => if Rltb item best then item else best) t a)
  end.

(** The builtin [min(iterable, key=...)]: an item replaces the best so far
    only when its key is strictly smaller. *)
Definition keep_smaller {A : Type} (key : A -> fl) (best item : A) : A :=
  if flt (key item) (key best) then item else best.

Definition py_min_by_key {A : Type} (key : A -> fl) (l : list A) : result A :=
  match l with
  | [] => Raise ValueError
  | a :: t => Ok (fold_left (keep_smaller key) t a)
  end.

(** Element-wise difference of two arrays of one shape. *)
Fixpoint np_subtract (a b : list fl) : list fl :=
  match a, b with
  | x :: a', y :: b' => fsub x y :: np_subtract a' b'
  | _, _ => []
  end.

(** [np.power(a, 2)] on a float array *)
Definition np_square (a : list fl) : list fl := map (fun d => fmul d d) a.

(** ** Diagnostics and the run monad *)

Inductive message : Type :=
| Banner (text : string)
| SourceDataX (xs : list Z)
| SourceDataY (ys : list R)
| NormalizedX (xs : list Z)
| NormalizedY (ys : list fl)
| LeastSquaresResults (res : list (string * fl))
| ComplexityEstimation (label : string)
| RegressionParameters (popt : list R)
| RegressionParametersError (perr : list fl)
| RegressionFunction (template : string) (popt : list R)
| PredictedExecutionTime (t : fl).

(** A computation reads the verbosity of the click context, prints messages
    and returns a value or raises. *)
Definition Run (A : Type) : Type := nat -> list message * result A.

Definition ret {A : Type} (a : A) : Run A := fun _ => ([], Ok a).

Definition bind {A B : Type} (m : Run A) (f : A -> Run B) : Run B :=
  fun verbosity =>
    match m verbosity with
    | (out, Ok a) => let (out', r) := f a verbosity in (out ++ out', r)
    | (out, Raise e) => (out, Raise e)
    end.

Definition lift {A : Type} (r : result A) : Run A := fun _ => ([], r).

Notation "x <- m ;; k" := (bind m (fun x => k))
  (at level 61, m at next level, right associativity).
Notation "m ;;; k" := (bind m (fun _ => k))
  (at level 61, right associativity).

(** [verbose(message, level=...)] *)
Definition verbose (msg : message) (level : nat) : Run unit :=
  fun verbosity => if (level <=? verbosity)%nat then ([msg], Ok tt) else ([], Ok tt).

Definition printed {A : Type} (m : Run A) (verbosity : nat) : list message :=
  fst (m verbosity).

Definition outcome {A : Type} (m : Run A) (verbosity : nat) : result A :=
  snd (m verbosity).

(** ** [complexity_phase] *)

(** The dictionary [complexity] built inside [complexity_phase], in
    insertion order: label, shape over the index array, coefficient. *)
Definition complexity (samples : Z) : list (string * ((Z -> fl) * fl)) :=
  [ ("O(1)"%string,
      (fun v => Fin 1, Fin 2));
    ("O(log n)"%string,
      (fun v => log2 v, log2 samples));
    ("O(n)"%string,
      (fun v => of_Z v, of_Z samples));
    ("O(n log n)"%string,
      (fun v => fmul (of_Z v) (log2 v),
       fmul (of_Z samples) (log2 samples)));
    ("O(n^2)"%string,
      (fun v => of_Z (np_power_int v 2), of_Z (np_power_int samples 2)));
    ("O(n^2 log n)"%string,
      (fun v => fmul (of_Z (np_power_int v 2)) (log2 v),
       fmul (of_Z (np_power_int samples 2)) (log2 samples)));
    ("O(n^3)"%string,
      (fun v => of_Z (np_power_int v 3), of_Z (np_power_int samples 3)));
    ("O(2^n)"%string,
      (fun v => pow2 v, pow2 samples)) ].

(** [func(norm_x) / coef] *)
Definition rescaled (func : Z -> fl) (coef : fl) (norm_x : list Z) : list fl :=
  map (fun v => fdiv (func v) coef) norm_x.

(** [np.sum(np.power(norm_y - func(norm_x) / coef, 2))] *)
Definition least_squares (norm_x : list Z) (norm_y : list fl)
    (func : Z -> fl) (coef : fl) : fl :=
  np_sum (np_square (np_subtract norm_y (rescaled func coef norm_x))).

(** [(yy - min(y)) / (max_y - min_y)] *)
Definition normalize (yy : list R) (min_raw min_y max_y : R) : list fl :=
  map (fun v => fdiv (Fin (v - min_raw)) (Fin (max_y - min_y))) yy.

(** The loop filling [res]: one pair of label and residual per entry. *)
Definition least_squares_results (norm_x : list Z) (norm_y : list fl)
    (catalog : list (string * ((Z -> fl) * fl))) : list (string * fl) :=
  map (fun '(comp, (func, coef)) => (comp, least_squares norm_x norm_y func coef))
      catalog.

Definition complexity_phase (x_values : list Z) (y_values : list R) (samples : Z)
  : Run string :=
  verbose (Banner ">>> Phase Complexity Check <<<") 2 ;;;
  let x := x_values in
  let y := y_values in
  lo <- lift (np_min_Z x) ;;
  hi <- lift (np_max_Z x) ;;
  xx <- lift (np_linspace_int lo hi samples) ;;
  yy <- lift (np_interp xx x y) ;;
  min_y <- lift (np_min_R yy) ;;
  max_y <- lift (np_max_R yy) ;;
  let norm_x := np_arange 1 (samples + 1) in
  min_raw <- lift (py_min_R y) ;;
  let norm_y := normalize yy min_raw min_y max_y in
  verbose (NormalizedX norm_x) 2 ;;;
  verbose (NormalizedY norm_y) 2 ;;;
  let res := least_squares_results norm_x norm_y (complexity samples) in
  verbose (LeastSquaresResults res) 1 ;;;
  best <- lift (py_min_by_key snd res) ;;
  ret (fst best).

(** The Classifier of the specification: the value [complexity_phase]
    returns, whatever is printed. *)
Definition classify (sizes : list Z) (durations : list R) (sample_count : Z)
  : result string :=
  outcome (complexity_phase sizes durations sample_count) 0%nat.


(** ** The intermediate arrays of [complexity_phase] *)

Definition value_or {A : Type} (r : result A) (default : A) : A :=
  match r with
  | Ok a => a
  | Raise _ => default
  end.

(** [xx] *)
Definition grid (x : list Z) (samples : Z) : list Z :=
  value_or (np_linspace_int (value_or (np_min_Z x) 0) (value_or (np_max_Z x) 0)
                            samples) [].

(** [yy] *)
Definition resampled (x : list Z) (y : list R) (samples : Z) : list R :=
  interp_all x y (grid x samples).

(** The value [np.interp] stores for one point when the search before it
    has left the index [guess]. *)
Definition interp_one (xp : list Z) (fp : list R) (guess key : Z) : R :=
  match xp with
  | [xp_val] =>
      if key <? xp_val then nth 0 fp 0%R
      else if key >? xp_val then last fp 0%R else nth 0 fp 0%R
  | _ => interp_at xp fp (binary_search_with_guess key xp guess) key
  end.

(** [norm_y] *)
Definition normalized (x : list Z) (y : list R) (samples : Z) : list fl :=
  let yy := resampled x y samples in
  normalize yy (value_or (py_min_R y) 0%R) (value_or (np_min_R yy) 0%R)
            (value_or (np_max_R yy) 0%R).

(** [res] *)
Definition residuals (x : list Z) (y : list R) (samples : Z) : list (string * fl) :=
  least_squares_results (np_arange 1 (samples + 1)) (normalized x y samples)
                        (complexity samples).

(** What a run of [complexity_phase] on a usable input prints. *)
Definition complexity_messages (x : list Z) (y : list R) (samples : Z)
    (verbosity : nat) : list message :=
  (if (2 <=? verbosity)%nat then [Banner ">>> Phase Complexity Check <<<"] else [])
  ++ (if (2 <=? verbosity)%nat then [NormalizedX (np_arange 1 (samples + 1))] else [])
  ++ (if (2 <=? verbosity)%nat then [NormalizedY (normalized x y samples)] else [])
  ++ (if (1 <=? verbosity)%nat then [LeastSquaresResults (residuals x y samples)] else []).

(** The sample sets [complexity_phase] accepts. *)
Definition usable (x : list Z) (y : list R) (samples : Z) : Prop :=
  x <> [] /\ List.length x = List.length y /\ 1 <= samples.

(** ** [REGRESSION_FUNCTIONS], [predict_phase], [regression_phase] *)

(** A raw function is called as [f(x, *popt)]: a parameter count other
    than its own raises [TypeError]. *)
Definition raw_function : Type := Z -> list R -> result fl.

Definition REGRESSION_FUNCTIONS : list (string * (raw_function * string)) :=
  [ ("O(1)"%string,
      (fun x popt =>
         match popt with [a] => Ok (Fin a) | _ => Raise TypeError end,
       "{0:6f}"%string));
    ("O(log n)"%string,
      (fun x popt =>
         match popt with
         | [a; b] => Ok (fadd (Fin a) (fmul (Fin b) (log2 x)))
         | _ => Raise TypeError
         end,
       "{0:6f} + {1:6f} * log2(x)"%string));
    ("O(n)"%string,
      (fun x popt =>
         match popt with
         | [a; b] => Ok (fadd (Fin a) (fmul (Fin b) (of_Z x)))
         | _ => Raise TypeError
         end,
       "{0:6f} + {1:6f} * x"%string));
    ("O(n log n)"%string,
      (fun x popt =>
         match popt with
         | [a; b] => Ok (fadd (Fin a) (fmul (fmul (Fin b) (of_Z x)) (log2 x)))
         | _ => Raise TypeError
         end,
       "{0:6f} + {1:6f} * x * log2(x)"%string));
    ("O(n^2)"%string,
      (fun x popt =>
         match popt with
         | [a; b] => Ok (fadd (Fin a) (fmul (Fin b) (Fin (IZR x ^ 2))))
         | _ => Raise TypeError
         end,
       "{0:6f} + {1:6f} * x^2"%string));
    ("O(n^2 log n)"%string,
      (fun x popt =>
         match popt with
         | [a; b] =>
             Ok (fadd (Fin a) (fmul (fmul (Fin b) (Fin (IZR x ^ 2))) (log2 x)))
         | _ => Raise TypeError
         end,
       "{0:6f} + {1:6f} * x^2 * log2(x)"%string));
    ("O(n^3)"%string,
      (fun x popt =>
         match popt with
         | [a; b] => Ok (fadd (Fin a) (fmul (Fin b) (Fin (IZR x ^ 3))))
         | _ => Raise TypeError
         end,
       "{0:6f} + {1:6f} * x^3"%string));
    ("O(2^n)"%string,
      (fun x popt =>
         match popt with
         | [a; b] => Ok (fadd (Fin a) (fmul (Fin b) (pow2 x)))
         | _ => Raise TypeError
         end,
       "{0:6f} + {1:6f} * 2^x"%string)) ].

(** Subscripting a dictionary: a missing key raises [KeyError]. *)
Fixpoint getitem {A : Type} (d : list (string * A)) (key : string) : result A :=
  match d with
  | [] => Raise KeyError
  | (k, a) :: d' => if String.eqb k key then Ok a else getitem d' key
  end.

Definition predict_phase (label : string) (x : Z) (popt : list R) : Run fl :=
  verbose (Banner ">>> Phase Execution Time Prediction <<<") 2 ;;;
  entry <- lift (getitem REGRESSION_FUNCTIONS label) ;;
  lift (fst entry x popt).

(** The Predictor of the specification. *)
Definition predict (label : string) (x : Z) (parameters : list R) : result fl :=
  outcome (predict_phase label x parameters) 0%nat.

(** [np.sqrt(np.diag(pcov))] *)
Definition np_sqrt_diag (pcov : list (list R)) : list fl :=
  map (fun i =>
         let d := nth i (nth i pcov []) 0%R in
         if Rltb d 0 then NaN else Fin (sqrt d))
      (seq 0 (List.length pcov)).

(** The number of replacement fields of a template and [str.format] on
    it: too few arguments raise [IndexError]. *)
Fixpoint replacement_fields (template : string) : nat :=
  match template with
  | EmptyString => 0%nat
  | String c rest =>
      ((if Ascii.eqb c "{"%char then 1 else 0) + replacement_fields rest)%nat
  end.

Definition py_format (template : string) (popt : list R) : result message :=
  if (replacement_fields template <=? List.length popt)%nat
  then Ok (RegressionFunction template popt)
  else Raise IndexError.

(** [str.split(sep)] with a separator given. *)
Fixpoint split_from (sep : string) (skip : nat) (field : string) (s : string)
  : list string :=
  match s with
  | EmptyString => [field]
  | String c rest =>
      match skip with
      | S k => split_from sep k field rest
      | O =>
          if String.prefix sep s
          then field :: split_from sep (String.length sep - 1) EmptyString rest
          else split_from sep O (field ++ String c EmptyString) rest
      end
  end.

Definition py_split (s sep : string) : result (list string) :=
  if String.eqb sep EmptyString then Raise ValueError
  else Ok (split_from sep 0 EmptyString s).

(** [a, b = fields] *)
Definition unpack_pair (fields : list string) : result (string * string) :=
  match fields with
  | [a; b] => Ok (a, b)
  | _ => Raise ValueError
  end.

Section Pipeline.

(** [scipy.optimize.curve_fit] and the builtins [int] and [float] are
    outside the repository. *)
Variable curve_fit :
  raw_function -> list Z -> list R -> result (list R * list (list R)).
Variable py_int : string -> option Z.
Variable py_float : string -> option R.

Definition convert {A : Type} (parsed : option A) : result A :=
  match parsed with
  | Some a => Ok a
  | None => Raise ValueError
  end.

Definition regression_phase (x_values : list Z) (y_values : list R)
    (label : string) : Run (list R) :=
  verbose (Banner ">>> Phase Regression Computing <<<") 4 ;;;
  let x := x_values in
  let y := y_values in
  entry <- lift (getitem REGRESSION_FUNCTIONS label) ;;
  fit <- lift (curve_fit (fst entry) x y) ;;
  let popt := fst fit in
  let pcov := snd fit in
  verbose (RegressionParameters popt) 1 ;;;
  verbose (RegressionParametersError (np_sqrt_diag pcov)) 1 ;;;
  ret popt.

(** The loop of [cli] over the lines of [src]. *)
Fixpoint read_records (delimiter : string) (src : list string)
    (x_values : list Z) (y_values : list R) : Run (list Z * list R) :=
  match src with
  | [] => ret (x_values, y_values)
  | line :: rest =>
      fields <- lift (py_split line delimiter) ;;
      ab <- lift (unpack_pair fields) ;;
      xi <- lift (convert (py_int (fst ab))) ;;
      yi <- lift (convert (py_float (snd ab))) ;;
      read_records delimiter rest (x_values ++ [xi]) (y_values ++ [yi])
  end.

(** A record the loop cannot read. *)
Definition malformed (delimiter line : string) : Prop :=
  match py_split line delimiter with
  | Ok [a; b] => py_int a = None \/ py_float b = None
  | _ => True
  end.

Definition cli (x_value : option Z) (sample_count : Z) (delimiter : string)
    (src : list string) : Run unit :=
  verbose (Banner ">>> Phase Data Acquisition <<<") 2 ;;;
  data <- read_records delimiter src [] [] ;;
  let x_values := fst data in
  let y_values := snd data in
  verbose (SourceDataX x_values) 2 ;;;
  verbose (SourceDataY y_values) 2 ;;;
  complexity <- complexity_phase x_values y_values sample_count ;;
  verbose (ComplexityEstimation complexity) 0 ;;;
  popt <- regression_phase x_values y_values complexity ;;
  entry <- lift (getitem REGRESSION_FUNCTIONS complexity) ;;
  formatted <- lift (py_format (snd entry) popt) ;;
  verbose formatted 0 ;;;
  match x_value with
  | Some x =>
      t <- predict_phase complexity x popt ;;
      verbose (PredictedExecutionTime t) 0
  | None => ret tt
  end.

End Pipeline.

(** ** Notions used to state the properties *)

(** The labels in the order the catalog declares them. *)
Definition catalog_labels : list string :=
  ["O(1)"; "O(log n)"; "O(n)"; "O(n log n)"; "O(n^2)"; "O(n^2 log n)";
   "O(n^3)"; "O(2^n)"]%string.

(** The best entry of [res], as [min(res, key=...)] finds it. *)
Definition winner (res : list (string * fl)) : string * fl :=
  fold_left (keep_smaller snd) (tl res) (hd (EmptyString, NaN) res).

(** [best], at position [k], is the first minimum of the items seen: no key
    is below its key, and its key is below every earlier key that is a
    number. *)
Definition first_minimum_of {A : Type} (key : A -> fl) (seen : list A)
    (k : nat) (best : A) : Prop :=
  nth_error seen k = Some best /\
  (forall e, In e seen -> flt (key e) (key best) = false) /\
  (forall j e, (j < k)%nat -> nth_error seen j = Some e ->
               is_nan (key e) = false -> flt (key best) (key e) = true).

Definition not_ninf (a : fl) : Prop := a <> NInf.

(** An entry whose rescaled shape is finite on the whole index range. *)
Definition well_scaled (samples : Z) (func : Z -> fl) (coef : fl) : Prop :=
  forall v, 1 <= v <= samples -> is_fin (fdiv (func v) coef) = true.

(** When the entry at position [k] is well scaled: the first four always,
    the powers while their [int64] coefficient is not zero, the exponential
    below 1024. *)
Definition scaling_condition (k : nat) (samples : Z) : Prop :=
  match k with
  | 0 | 1 | 2 | 3 => True
  | 4 | 5 => (np_power_int samples 2 <> 0)%Z
  | 6 => (np_power_int samples 3 <> 0)%Z
  | 7 => (samples < 1024)%Z
  | _ => False
  end%nat.

Definition scale (c : R) (l : list R) : list R := map (Rmult c) l.

Definition minimum_of (m : R) (l : list R) : Prop :=
  In m l /\ forall e, In e l -> (m <= e)%R.

Definition maximum_of (m : R) (l : list R) : Prop :=
  In m l /\ forall e, In e l -> (e <= m)%R.




(** What a result [j] of the search says of the key. *)
Definition bracket (key : Z) (arr : list Z) (j : Z) : Prop :=
  let len := Z.of_nat (List.length arr) in
  (j = len /\ item arr (len - 1) < key) \/
  (j = -1 /\ key <= item arr (len - 1) /\ key < item arr 0) \/
  (0 <= j < len /\ item arr 0 <= key <= item arr (len - 1) /\
   item arr j <= key /\ (j < len - 1 -> key < item arr (j + 1))).

(** The value at [p] of the line through [(x0, y0)] and [(x1, y1)]. *)
Definition line_through (x0 x1 : Z) (y0 y1 : R) (p : Z) : R :=
  (y0 + (y1 - y0) * (IZR p - IZR x0) / (IZR x1 - IZR x0))%R.

(** Piecewise-linear interpolation over the pairs in the order they are
    supplied, as the specification words it: past the last supplied size
    the last supplied duration, before the first supplied size the first
    supplied duration, and in between the value of the line through two
    neighbouring pairs whose sizes enclose the point. *)
Definition interpolates (sizes : list Z) (durations : list R) (p : Z) (v : R)
  : Prop :=
  (last sizes 0 < p /\ v = last durations 0%R) \/
  (p <= last sizes 0 /\ p < hd 0 sizes /\ v = hd 0%R durations) \/
  (hd 0 sizes <= p /\ p = last sizes 0 /\ v = last durations 0%R) \/
  (exists j : nat,
     (S j < List.length sizes)%nat /\
     nth j sizes 0 <= p < nth (S j) sizes 0 /\
     v = line_through (nth j sizes 0) (nth (S j) sizes 0)
                      (nth j durations 0%R) (nth (S j) durations 0%R) p).

(** The sum of squared residuals as the specification words it: the
    squares of the differences between the normalized values and the
    rescaled shape at the indices [index], [index + 1], ..., added up. *)
Fixpoint sum_of_squared_residuals (index : Z) (norm_y : list fl)
    (shape : Z -> fl) (coef : fl) : fl :=
  match norm_y with
  | [] => Fin 0
  | value :: rest =>
      let residual := fsub value (fdiv (shape index) coef) in
      fadd (fmul residual residual)
           (sum_of_squared_residuals (index + 1) rest shape coef)
  end.

(** Residuals over four grid points. *)
Definition lg3 : R := (ln 3 / ln 2)%R.

Definition squares4 (a b c d s1 s2 s3 s4 : R) : R :=
  ((a - s1) ^ 2 + (b - s2) ^ 2 + (c - s3) ^ 2 + (d - s4) ^ 2)%R.

(** The records of the specification's scenario, parsed. *)
Definition scenario_records : list string :=
  ["1 0.5"; "2 1.0"; "4 2.0"; "8 4.0"]%string.
Definition scenario_sizes : list Z := [1; 2; 4; 8].
Definition scenario_durations : list R := [(1 / 2)%R; 1%R; 2%R; 4%R].






(** Parsers that read the scenario's fields and nothing else. *)
Definition scenario_int (s : string) : option Z :=
  if String.eqb s "1" then Some 1
  else if String.eqb s "2" then Some 2
  else if String.eqb s "4" then Some 4
  else if String.eqb s "8" then Some 8
  else None.

Definition scenario_float (s : string) : option R :=
  if String.eqb s "0.5" then Some (1 / 2)%R
  else if String.eqb s "1.0" then Some 1%R
  else if String.eqb s "2.0" then Some 2%R
  else if String.eqb s "4.0" then Some 4%R
  else None.

(** A fitter that never converges. *)
Definition no_fit (f : raw_function) (x : list Z) (y : list R)
  : result (list R * list (list R)) := Raise RuntimeError.

(** The messages that carry results: all printed at level 0. *)
Definition is_result (m : message) : bool :=
  match m with
  | ComplexityEstimation _ | RegressionFunction _ _ | PredictedExecutionTime _ => true
  | _ => false
  end.

Definition results (out : list message) : list message := filter is_result out.

Definition verbosity_independent {A : Type} (m : Run A) : Prop :=
  forall v1 v2 : nat,
    outcome m v1 = outcome m v2 /\
    results (printed m v1) = results (printed m v2).

(** ** Views used by the further properties *)

(** A float that is not negative: a real from 0 up, +inf or NaN. *)
Definition not_negative (a : fl) : Prop :=
  match a with
  | Fin r => (0 <= r)%R
  | NInf => False
  | PInf | NaN => True
  end.

(** The number of parameters of a label's raw function. *)
Definition arity (label : string) : nat :=
  if String.eqb label "O(1)" then 1%nat else 2%nat.

(** The labels whose raw function takes a logarithm. *)
Definition log_labels : list string :=
  ["O(log n)"; "O(n log n)"; "O(n^2 log n)"]%string.

(** What the Predictor prints. *)
Definition is_prediction (m : message) : bool :=
  match m with
  | PredictedExecutionTime _ => true
  | Banner text => String.eqb text ">>> Phase Execution Time Prediction <<<"
  | _ => false
  end.

(** A computation none of whose messages satisfies [p], at any verbosity. *)
Definition never_prints {A : Type} (p : message -> bool) (m : Run A) : Prop :=
  forall verbosity : nat, Forall (fun msg => p msg = false) (printed m verbosity).

(** [line] is a record of size [x] and duration [y]. *)
Definition record_of (py_int : string -> option Z) (py_float : string -> option R)
    (delimiter line : string) (xy : Z * R) : Prop :=
  exists a b,
    py_split line delimiter = Ok [a; b] /\
    py_int a = Some (fst xy) /\ py_float b = Some (snd xy).

(** [sep.join(fields)] *)
Fixpoint py_join (sep : string) (fields : list string) : string :=
  match fields with
  | [] => EmptyString
  | [f] => f
  | f :: rest => (f ++ sep ++ py_join sep rest)%string
  end.

(** [s[n:]] *)
Fixpoint string_drop (n : nat) (s : string) : string :=
  match n, s with
  | O, _ => s
  | S n', String _ rest => string_drop n' rest
  | S _, EmptyString => EmptyString
  end.

(** A fitter that answers the same parameters whatever the data. *)
Definition fixed_fit (popt : list R) (f : raw_function) (x : list Z) (y : list R)
  : result (list R * list (list R)) := Ok (popt, []).

(** [a] is [b] with some items left out. *)
Inductive subsequence {A : Type} : list A -> list A -> Prop :=
| subsequence_nil : subsequence [] []
| subsequence_keep (x : A) (a b : list A) :
    subsequence a b -> subsequence (x :: a) (x :: b)
| subsequence_drop (x : A) (a b : list A) :
    subsequence a b -> subsequence a (x :: b).

(** A computation that returns the same at every verbosity and prints, at
    a higher verbosity, everything it prints at a lower one, in the same
    order. *)
Definition nested {A : Type} (m : Run A) : Prop :=
  forall v1 v2 : nat, (v1 <= v2)%nat ->
    outcome m v1 = outcome m v2 /\
    subsequence (printed m v1) (printed m v2).

(** * Properties *)

(** ** Comparisons and arithmetic of [fl] *)

Lemma Rltb_true (a b : R) : (a < b)%R -> Rltb a b = true.
Proof. intros H. unfold Rltb. destruct (Rlt_dec a b); [reflexivity | contradiction]. Qed.

Lemma Rltb_false (a b : R) : (b <= a)%R -> Rltb a b = false.
Proof. intros H. unfold Rltb. destruct (Rlt_dec a b); [lra | reflexivity]. Qed.

Lemma Reqb_true (a b : R) : a = b -> Reqb a b = true.
Proof. intros H. unfold Reqb. destruct (Req_dec_T a b); [reflexivity | contradiction]. Qed.

Lemma Reqb_false (a b : R) : a <> b -> Reqb a b = false.
Proof. intros H. unfold Reqb. destruct (Req_dec_T a b); [contradiction | reflexivity]. Qed.

Lemma fdiv_fin (x y : R) : y <> 0%R -> fdiv (Fin x) (Fin y) = Fin (x / y).
Proof. intros H. unfold fdiv. now rewrite (Reqb_false _ _ H). Qed.

Lemma fdiv_by_zero (x : R) :
  fdiv (Fin x) (Fin 0) = PInf \/ fdiv (Fin x) (Fin 0) = NInf \/ fdiv (Fin x) (Fin 0) = NaN.
Proof.
  unfold fdiv. rewrite (Reqb_true 0 0 eq_refl).
  destruct (Reqb x 0); [auto |]. destruct (Rltb x 0); simpl; auto.
Qed.

Lemma ln2_pos : (0 < ln 2)%R.
Proof. rewrite <- ln_1. apply ln_increasing; lra. Qed.

Lemma log2_pos (v : Z) : 0 < v -> log2 v = Fin (ln (IZR v) / ln 2).
Proof. intros H. unfold log2. apply Z.ltb_lt in H. now rewrite H. Qed.

Lemma log2_gt_0 (v : Z) : 2 <= v -> (0 < ln (IZR v) / ln 2)%R.
Proof.
  intros H. apply Rdiv_lt_0_compat; [| apply ln2_pos].
  rewrite <- ln_1. apply ln_increasing; [lra |]. apply IZR_lt. lia.
Qed.

Lemma wrap64_small (z : Z) : - 2 ^ 63 <= z < 2 ^ 63 -> wrap64 z = z.
Proof. intros H. unfold wrap64. rewrite Z.mod_small; lia. Qed.

Lemma pow2_small (v : Z) : v < 1024 -> pow2 v = Fin (powerRZ 2 v).
Proof. intros H. unfold pow2. apply Z.ltb_lt in H. now rewrite H. Qed.

Lemma powerRZ_2_pos (v : Z) : (0 < powerRZ 2 v)%R.
Proof. apply powerRZ_lt. lra. Qed.

(** ** The catalog *)

(** Both dictionaries have the same keys in the same order: a label
    [complexity_phase] returns is a key of [REGRESSION_FUNCTIONS]. *)
Lemma complexity_labels (samples : Z) :
  map fst (complexity samples) = catalog_labels.
Proof. reflexivity. Qed.

Lemma regression_labels : map fst REGRESSION_FUNCTIONS = catalog_labels.
Proof. reflexivity. Qed.

Lemma power_small (n k : Z) : 1 <= n < 1024 -> 2 <= k <= 3 -> np_power_int n k = n ^ k /\ 0 < n ^ k.
Proof.
  intros Hn Hk. unfold np_power_int.
  assert (Hk' : k = 2 \/ k = 3) by lia.
  assert (H : 0 < n ^ k < 2 ^ 63).
  { destruct Hk' as [-> | ->].
    - replace (n ^ 2) with (n * n) by ring. nia.
    - replace (n ^ 3) with (n * (n * n)) by ring.
      assert (n * n < 1024 * 1024) by nia. nia. }
  split; [apply wrap64_small|]; lia.
Qed.

(** C1, amended.  For every entry of the catalog other than O(1) the
    normalization constant is the entry's shape evaluated at the sample
    count, and for sample counts from 2 to 1023 the rescaled shape is 1 at
    the final index.  For O(1) the constant is 2.0 while the shape is 1, so
    the rescaled shape is 0.5 everywhere. *)
Theorem entry_constant_is_final_shape :
  forall (samples : Z) (label : string) (func : Z -> fl) (coef : fl),
    In (label, (func, coef)) (complexity samples) ->
    (label <> "O(1)"%string ->
       coef = func samples /\
       (2 <= samples < 1024 -> fdiv (func samples) coef = Fin 1)) /\
    (label = "O(1)"%string ->
       coef = Fin 2 /\ func samples = Fin 1 /\
       fdiv (func samples) coef = Fin (1 / 2)).
Proof.
  intros samples label func coef Hin.
  unfold complexity in Hin. simpl in Hin.
  assert (Hunit : forall r : R, r <> 0%R -> fdiv (Fin r) (Fin r) = Fin 1).
  { intros r Hr. rewrite fdiv_fin by assumption. f_equal. now field. }
  repeat (destruct Hin as [Hin | Hin]; [injection Hin as <- <- <- |]);
    try contradiction;
    (split; [intros Hne | intros Heq; try discriminate Heq]);
    try (exfalso; apply Hne; reflexivity).
  - repeat split. apply fdiv_fin. lra.
  - split; [reflexivity | intros Hs].
    rewrite log2_pos by lia. apply Hunit.
    pose proof (log2_gt_0 samples ltac:(lia)). lra.
  - split; [reflexivity | intros Hs]. apply Hunit.
    apply not_0_IZR. lia.
  - split; [reflexivity | intros Hs]. rewrite log2_pos by lia. simpl.
    apply Hunit. pose proof (log2_gt_0 samples ltac:(lia)).
    assert (0 < IZR samples)%R by (apply IZR_lt; lia).
    apply Rgt_not_eq, Rmult_lt_0_compat; assumption.
  - split; [reflexivity | intros Hs].
    destruct (power_small samples 2 ltac:(lia) ltac:(lia)) as [-> Hp].
    apply Hunit. apply not_0_IZR. lia.
  - split; [reflexivity | intros Hs].
    destruct (power_small samples 2 ltac:(lia) ltac:(lia)) as [-> Hp].
    rewrite log2_pos by lia. simpl. apply Hunit.
    pose proof (log2_gt_0 samples ltac:(lia)).
    assert (0 < IZR (samples ^ 2))%R by (apply IZR_lt; lia).
    apply Rgt_not_eq, Rmult_lt_0_compat; assumption.
  - split; [reflexivity | intros Hs].
    destruct (power_small samples 3 ltac:(lia) ltac:(lia)) as [-> Hp].
    apply Hunit. apply not_0_IZR. lia.
  - split; [reflexivity | intros Hs]. rewrite pow2_small by lia.
    apply Hunit. pose proof (powerRZ_2_pos samples). lra.
Qed.

(** Outside that range the quotient can be NaN: [log2(1)] is 0, and
    [exp2(1024)] is infinite. *)
Lemma single_sample_log_quotient : fdiv (log2 1) (log2 1) = NaN.
Proof.
  rewrite log2_pos by lia. rewrite ln_1. unfold Rdiv. rewrite Rmult_0_l.
  unfold fdiv. now rewrite (Reqb_true 0 0 eq_refl).
Qed.

Lemma overflowed_exp_quotient : fdiv (pow2 1024) (pow2 1024) = NaN.
Proof. reflexivity. Qed.

Lemma entry_constant_is_final_shape_witness :
  In ("O(n)"%string, (of_Z, of_Z 4)) (complexity 4) /\
  fdiv (of_Z 4) (of_Z 4) = Fin 1.
Proof.
  assert (Hin : In ("O(n)"%string, (of_Z, of_Z 4)) (complexity 4))
    by (right; right; left; reflexivity).
  split; [exact Hin |].
  destruct (entry_constant_is_final_shape 4 "O(n)" of_Z (of_Z 4) Hin) as [Hne _].
  destruct (Hne ltac:(discriminate)) as [_ Hone].
  apply Hone. lia.
Defined.

(** C1 as stated fails at the O(1) entry: its constant 2.0 is not its shape,
    which is 1 at every index. *)
Lemma constant_entry_not_final_shape :
  ~ (forall (samples : Z) (label : string) (func : Z -> fl) (coef : fl),
       In (label, (func, coef)) (complexity samples) ->
       coef = func samples /\ fdiv (func samples) coef = Fin 1).
Proof.
  intros H.
  destruct (H 4 "O(1)"%string (fun _ => Fin 1) (Fin 2) (or_introl eq_refl))
    as [Hc _].
  injection Hc as Hc. lra.
Qed.

(** ** Runs *)

Lemma bind_ok {A B : Type} (m : Run A) (f : A -> Run B) (v : nat)
    (out : list message) (a : A) :
  m v = (out, Ok a) -> bind m f v = (out ++ fst (f a v), snd (f a v)).
Proof. intros H. unfold bind. rewrite H. now destruct (f a v). Qed.

Lemma bind_raise {A B : Type} (m : Run A) (f : A -> Run B) (v : nat)
    (out : list message) (e : exception) :
  m v = (out, Raise e) -> bind m f v = (out, Raise e).
Proof. intros H. unfold bind. now rewrite H. Qed.

Lemma outcome_bind {A B : Type} (m : Run A) (f : A -> Run B) (v : nat) :
  outcome (bind m f) v =
  match outcome m v with
  | Ok a => outcome (f a) v
  | Raise e => Raise e
  end.
Proof.
  unfold outcome, bind. destruct (m v) as [out [a | e]]; simpl; [| reflexivity].
  now destruct (f a v).
Qed.

Lemma outcome_lift {A : Type} (r : result A) (v : nat) : outcome (lift r) v = r.
Proof. reflexivity. Qed.

Lemma outcome_verbose (msg : message) (level v : nat) :
  outcome (verbose msg level) v = Ok tt.
Proof. unfold outcome, verbose. now destruct (level <=? v)%nat. Qed.

(** ** The arrays of [complexity_phase] *)

Lemma arange_from_length (lo : Z) (n : nat) : List.length (arange_from lo n) = n.
Proof. revert lo. induction n; intros; simpl; [reflexivity | now rewrite IHn]. Qed.


Lemma arange_from_In (n : nat) : forall (lo v : Z),
  In v (arange_from lo n) <-> lo <= v < lo + Z.of_nat n.
Proof.
  induction n; intros lo v; simpl; [lia |].
  rewrite IHn. lia.
Qed.

Lemma np_arange_length (lo hi : Z) : List.length (np_arange lo hi) = Z.to_nat (hi - lo).
Proof. apply arange_from_length. Qed.

Lemma np_arange_In (lo hi v : Z) : In v (np_arange lo hi) <-> lo <= v < hi.
Proof. unfold np_arange. rewrite arange_from_In. lia. Qed.

Lemma linspace_ok (start stop num : Z) :
  0 <= num ->
  exists xx, np_linspace_int start stop num = Ok xx /\
             List.length xx = Z.to_nat num.
Proof.
  intros H. unfold np_linspace_int.
  destruct (num <? 0) eqn:Hneg; [apply Z.ltb_lt in Hneg; lia |].
  destruct (num =? 1) eqn:Hone.
  - apply Z.eqb_eq in Hone. subst. eexists. split; reflexivity.
  - eexists. split; [reflexivity |].
    rewrite length_map, np_arange_length. f_equal. lia.
Qed.

Lemma grid_length (x : list Z) (samples : Z) :
  0 <= samples -> List.length (grid x samples) = Z.to_nat samples.
Proof.
  intros H. unfold grid.
  destruct (linspace_ok (value_or (np_min_Z x) 0) (value_or (np_max_Z x) 0)
                        samples H) as [xx [-> Hlen]].
  exact Hlen.
Qed.

Lemma last_as_nth (l : list Z) : last l 0 = nth (List.length l - 1) l 0.
Proof.
  induction l as [| a [| b l] IH]; try reflexivity.
  change (last (a :: b :: l) 0) with (last (b :: l) 0). rewrite IH.
  simpl. now rewrite Nat.sub_0_r.
Qed.

Lemma last_as_nth_R (l : list R) : last l 0%R = nth (List.length l - 1) l 0%R.
Proof.
  induction l as [| a [| b l] IH]; try reflexivity.
  change (last (a :: b :: l) 0%R) with (last (b :: l) 0%R). rewrite IH.
  simpl. now rewrite Nat.sub_0_r.
Qed.

Lemma item_last (arr : list Z) :
  item arr (Z.of_nat (List.length arr) - 1) = last arr 0.
Proof.
  unfold item. rewrite last_as_nth. f_equal. lia.
Qed.

Lemma item_hd (arr : list Z) : item arr 0 = hd 0 arr.
Proof. now destruct arr. Qed.

Lemma shiftr_half (d : Z) : 0 < d -> 0 <= Z.shiftr d 1 < d.
Proof.
  intros H. rewrite Z.shiftr_div_pow2 by lia. change (2 ^ 1) with 2.
  split; [apply Z.div_pos; lia | apply Z.div_lt; lia].
Qed.

(** The bisection keeps [arr[imin - 1] <= key] once [imin] has moved and
    [key < arr[imax]] once [imax] has; until [imin] moves, [arr[imin] <= key]
    keeps [imax] above it. *)
Lemma bisect_spec (key : Z) (arr : list Z) (len : Z) :
  forall (fuel : nat) (imin imax : Z),
    0 <= imin <= imax -> imax <= len -> Z.of_nat fuel >= imax - imin ->
    (imin < imax /\ item arr imin <= key \/
     1 <= imin /\ item arr (imin - 1) <= key) ->
    (imax = len \/ key < item arr imax) ->
    let j := bisect fuel key arr imin imax in
    0 <= j < len /\ item arr j <= key /\ (j < len - 1 -> key < item arr (j + 1)).
Proof.
  induction fuel as [| fuel IH]; intros imin imax Hr Hlen Hfuel Hlo Hhi; cbn [bisect].
  - assert (imin = imax) by lia. subst imax.
    destruct Hlo as [[Hlt _] | [H1 Hle]]; [lia |].
    split; [lia |]. split; [assumption |].
    intros Hj. replace (imin - 1 + 1) with imin by lia.
    destruct Hhi as [-> | Hhi]; [lia | assumption].
  - destruct (imin <? imax) eqn:Hlt.
    + apply Z.ltb_lt in Hlt. cbv zeta.
      pose proof (shiftr_half (imax - imin) ltac:(lia)) as Hh.
      set (imid := imin + Z.shiftr (imax - imin) 1) in *.
      destruct (key >=? item arr imid) eqn:Hge.
      * apply Z.geb_le in Hge. apply IH.
        -- lia.
        -- lia.
        -- lia.
        -- right. split; [lia |]. now replace (imid + 1 - 1) with imid by lia.
        -- assumption.
      * rewrite Z.geb_leb in Hge. apply Z.leb_gt in Hge.
        apply IH.
        -- lia.
        -- lia.
        -- lia.
        -- destruct Hlo as [[_ Hle] | Hlo]; [| now right].
           left. split; [| assumption].
           assert (imid <> imin) by (intros Heq; rewrite Heq in Hge; lia). lia.
        -- now right.
    + apply Z.ltb_ge in Hlt. assert (imin = imax) by lia. subst imax.
      destruct Hlo as [[Hlt' _] | [H1 Hle]]; [lia |].
      split; [lia |]. split; [assumption |].
      intros Hj. replace (imin - 1 + 1) with imin by lia.
      destruct Hhi as [-> | Hhi]; [lia | assumption].
Qed.

(** The scan stops at the first item above the key. *)
Lemma linear_search_spec (key : Z) (rest : list Z) :
  forall (i : Z) (done : list Z),
    Z.of_nat (List.length done) = i -> 1 <= i ->
    item done (i - 1) <= key ->
    let arr := done ++ rest in
    let j := linear_search key rest i in
    i - 1 <= j < Z.of_nat (List.length arr) /\
    item arr j <= key /\
    (j < Z.of_nat (List.length arr) - 1 -> key < item arr (j + 1)).
Proof.
  induction rest as [| a rest IH]; intros i done Hlen Hi Hle; cbn [linear_search].
  - cbv zeta. rewrite app_nil_r. split; [lia |]. split; [assumption |]. lia.
  - cbv zeta. destruct (key >=? a) eqn:Hge.
    + apply Z.geb_le in Hge.
      assert (Happ : done ++ a :: rest = (done ++ [a]) ++ rest)
        by (now rewrite <- app_assoc).
      rewrite Happ.
      assert (Hl : Z.of_nat (List.length (done ++ [a])) = i + 1)
        by (rewrite length_app; simpl; lia).
      destruct (IH (i + 1) (done ++ [a]) Hl ltac:(lia)) as (Hr & Hj & Hn).
      { unfold item. replace (i + 1 - 1) with i by lia.
        rewrite app_nth2 by lia.
        replace (Z.to_nat i - List.length done)%nat with 0%nat by lia.
        exact Hge. }
      split; [lia |]. split; assumption.
    + rewrite Z.geb_leb in Hge. apply Z.leb_gt in Hge.
      rewrite length_app. cbn [List.length].
      split; [lia |]. split.
      * unfold item in *. rewrite app_nth1 by lia. assumption.
      * intros _. unfold item. replace (i - 1 + 1) with i by lia.
        rewrite app_nth2 by lia.
        replace (Z.to_nat i - List.length done)%nat with 0%nat by lia.
        exact Hge.
Qed.

(** Whatever the guess and the order of the items, the search returns
    [len] past the last item, [-1] before the first, or an index whose item
    is at most the key while the next item is above it. *)
Lemma search_bracket (key : Z) (arr : list Z) (guess : Z) :
  arr <> [] -> bracket key arr (binary_search_with_guess key arr guess).
Proof.
  intros Hne. unfold binary_search_with_guess, bracket. cbv zeta.
  set (len := Z.of_nat (List.length arr)).
  assert (Hlen : 1 <= len) by (destruct arr; [contradiction | unfold len; simpl; lia]).
  destruct (key >? item arr (len - 1)) eqn:Hhi.
  { rewrite Z.gtb_ltb in Hhi. apply Z.ltb_lt in Hhi. left. now split. }
  rewrite Z.gtb_ltb in Hhi. apply Z.ltb_ge in Hhi.
  destruct (key <? item arr 0) eqn:Hlo.
  { apply Z.ltb_lt in Hlo. right; left. repeat split; assumption. }
  apply Z.ltb_ge in Hlo.
  right; right.
  destruct (len <=? 4) eqn:Hshort.
  { destruct arr as [| a rest]; [contradiction |]. cbn [tl].
    destruct (linear_search_spec key rest 1 [a] eq_refl ltac:(lia) Hlo)
      as (Hr & Hj & Hn).
    cbn [app] in Hr, Hj, Hn. fold len in Hr, Hn.
    split; [lia |]. split; [split; assumption |]. split; assumption. }
  apply Z.leb_gt in Hshort.
  set (g1 := if guess >? len - 3 then len - 3 else guess).
  set (g := if g1 <? 1 then 1 else g1).
  assert (Hg : 1 <= g <= len - 3).
  { unfold g, g1. destruct (guess >? len - 3) eqn:H1.
    - destruct (len - 3 <? 1) eqn:H2; [apply Z.ltb_lt in H2 |]; lia.
    - rewrite Z.gtb_ltb in H1. apply Z.ltb_ge in H1.
      destruct (guess <? 1) eqn:H2;
        [apply Z.ltb_lt in H2 | apply Z.ltb_ge in H2]; lia. }
  clearbody g. clear g1.
  assert (Hin : item arr 0 <= key <= item arr (len - 1)) by (split; assumption).
  destruct (key <? item arr g) eqn:Hkg.
  - apply Z.ltb_lt in Hkg.
    destruct (key <? item arr (g - 1)) eqn:Hkg1.
    + apply Z.ltb_lt in Hkg1.
      assert (Hg2 : 2 <= g).
      { destruct (Z.eq_dec g 1) as [-> | Hn]; [| lia].
        change (1 - 1) with 0 in Hkg1. lia. }
      set (imin := if (g >? LIKELY_IN_CACHE_SIZE)
                      && (key >=? item arr (g - LIKELY_IN_CACHE_SIZE))
                   then g - LIKELY_IN_CACHE_SIZE else 0).
      assert (Himin : 0 <= imin < g - 1 /\ item arr imin <= key).
      { unfold imin, LIKELY_IN_CACHE_SIZE.
        destruct (g >? 8) eqn:H8; cbn [andb]; [| split; [lia | assumption]].
        rewrite Z.gtb_ltb in H8. apply Z.ltb_lt in H8.
        destruct (key >=? item arr (g - 8)) eqn:Hc; [| split; [lia | assumption]].
        apply Z.geb_le in Hc. split; [lia | assumption]. }
      clearbody imin.
      destruct (bisect_spec key arr len (Z.to_nat (g - 1 - imin)) imin (g - 1))
        as (Hr & Hj & Hn); lia.
    + apply Z.ltb_ge in Hkg1.
      split; [lia |]. split; [assumption |]. split; [assumption |].
      intros _. now replace (g - 1 + 1) with g by lia.
  - apply Z.ltb_ge in Hkg.
    destruct (key <? item arr (g + 1)) eqn:Hk1.
    { apply Z.ltb_lt in Hk1. split; [lia |]. split; [assumption |]. now split. }
    apply Z.ltb_ge in Hk1.
    destruct (key <? item arr (g + 2)) eqn:Hk2.
    { apply Z.ltb_lt in Hk2. split; [lia |]. split; [assumption |].
      split; [assumption |]. intros _. now replace (g + 1 + 1) with (g + 2) by lia. }
    apply Z.ltb_ge in Hk2.
    set (imax := if (g <? len - LIKELY_IN_CACHE_SIZE - 1)
                    && (key <? item arr (g + LIKELY_IN_CACHE_SIZE))
                 then g + LIKELY_IN_CACHE_SIZE else len).
    assert (Himax : g + 2 < imax <= len /\ (imax = len \/ key < item arr imax)).
    { unfold imax, LIKELY_IN_CACHE_SIZE.
      destruct (g <? len - 8 - 1) eqn:H8; cbn [andb]; [| split; [lia | now left]].
      apply Z.ltb_lt in H8.
      destruct (key <? item arr (g + 8)) eqn:Hc; [| split; [lia | now left]].
      apply Z.ltb_lt in Hc. split; [lia | now right]. }
    clearbody imax.
    destruct (bisect_spec key arr len (Z.to_nat (imax - (g + 2))) (g + 2) imax)
      as (Hr & Hj & Hn); lia.
Qed.

(** Every value of [np.interp] is the value at its point for some guess. *)
Lemma interp_loop_points (xp : list Z) (fp : list R) (x : list Z) :
  forall j : Z,
    Forall2 (fun p v => exists guess,
               v = interp_at xp fp (binary_search_with_guess p xp guess) p)
            x (interp_loop xp fp j x).
Proof.
  induction x as [| key rest IH]; intros j; cbn [interp_loop]; constructor.
  - now exists j.
  - apply IH.
Qed.

Lemma interp_all_points (xp : list Z) (fp : list R) (x : list Z) :
  Forall2 (fun p v => exists guess, v = interp_one xp fp guess p)
          x (interp_all xp fp x).
Proof.
  unfold interp_all, interp_one.
  destruct xp as [| p0 [| p1 xp']]; try apply interp_loop_points.
  induction x as [| key rest IH]; cbn [map]; constructor; [| exact IH].
  exists 0. reflexivity.
Qed.

Lemma interp_all_length (xp : list Z) (fp : list R) (x : list Z) :
  List.length (interp_all xp fp x) = List.length x.
Proof.
  symmetry. eapply Forall2_length, interp_all_points.
Qed.

Lemma resampled_points (x : list Z) (y : list R) (samples : Z) :
  Forall2 (fun p v => exists guess, v = interp_one x y guess p)
          (grid x samples) (resampled x y samples).
Proof. apply interp_all_points. Qed.

Lemma Forall2_In_r {A B : Type} (P : A -> B -> Prop) (l : list A) (l' : list B) :
  Forall2 P l l' -> forall b, In b l' -> exists a, In a l /\ P a b.
Proof.
  induction 1 as [| a b l l' Hab HF IH]; intros c Hc; [destruct Hc |].
  destruct Hc as [<- | Hc]; [exists a; split; [now left | assumption] |].
  destruct (IH c Hc) as [a' [Ha' HP]]. exists a'. split; [now right | assumption].
Qed.


Lemma resampled_In (x : list Z) (y : list R) (samples : Z) (v : R) :
  In v (resampled x y samples) ->
  exists p guess, In p (grid x samples) /\ v = interp_one x y guess p.
Proof.
  intros Hv.
  destruct (Forall2_In_r _ _ _ (resampled_points x y samples) v Hv)
    as (p & Hp & guess & Hg).
  now exists p, guess.
Qed.


(** What [np.interp] computes at one point is the interpolation over the
    pairs as supplied, whatever their order and whatever the guess. *)
Lemma interp_one_interpolates (xp : list Z) (fp : list R) (guess key : Z) :
  xp <> [] -> List.length xp = List.length fp ->
  interpolates xp fp key (interp_one xp fp guess key) /\
  (last xp 0 < key -> interp_one xp fp guess key = last fp 0%R) /\
  (key <= last xp 0 -> key < hd 0 xp -> interp_one xp fp guess key = hd 0%R fp).
Proof.
  intros Hne Hlen. unfold interp_one.
  destruct xp as [| p0 [| p1 xp']]; [contradiction | |].
  { destruct fp as [| f0 [| f1 fp']]; try discriminate Hlen.
    cbn [nth last hd]. unfold interpolates. cbn [nth last hd].
    destruct (key <? p0) eqn:Hlt.
    - apply Z.ltb_lt in Hlt. split; [right; left; repeat split; lia |].
      split; reflexivity.
    - apply Z.ltb_ge in Hlt. destruct (key >? p0) eqn:Hgt.
      + rewrite Z.gtb_ltb in Hgt. apply Z.ltb_lt in Hgt.
        split; [left; split; [lia | reflexivity] |]. split; reflexivity.
      + rewrite Z.gtb_ltb in Hgt. apply Z.ltb_ge in Hgt.
        split; [right; right; left; repeat split; lia |]. split; reflexivity. }
  set (xp := p0 :: p1 :: xp') in *.
  assert (Hhd : hd 0%R fp = nth 0 fp 0%R) by (now destruct fp).
  assert (Hlen2 : 2 <= Z.of_nat (List.length xp)) by (unfold xp; simpl; lia).
  pose proof (search_bracket key xp guess Hne) as Hb.
  set (j := binary_search_with_guess key xp guess) in *.
  unfold bracket in Hb. cbv zeta in Hb. rewrite item_last, item_hd in Hb.
  unfold interp_at. cbv zeta.
  destruct Hb as [[Hj Hhi] | [[Hj [Hhi Hlo]] | (Hr & [Hlo Hhi] & Hle & Hnext)]].
  - (* past the last supplied size *)
    rewrite Hj.
    destruct (Z.of_nat (List.length xp) =? -1) eqn:H1;
      [apply Z.eqb_eq in H1; lia |].
    rewrite Z.eqb_refl.
    split; [left; split; [assumption | reflexivity] |].
    split; [reflexivity | intros H; lia].
  - (* before the first supplied size *)
    rewrite Hj. cbn [Z.eqb]. rewrite <- Hhd.
    split; [right; left; repeat split; assumption |].
    split; [intros H; lia | reflexivity].
  - destruct (j =? -1) eqn:H1; [apply Z.eqb_eq in H1; lia |].
    destruct (j =? Z.of_nat (List.length xp)) eqn:H2; [apply Z.eqb_eq in H2; lia |].
    destruct (j =? Z.of_nat (List.length xp) - 1) eqn:Hend.
    + apply Z.eqb_eq in Hend.
      assert (Hkey : key = last xp 0).
      { rewrite <- item_last in Hhi |- *. rewrite <- Hend in Hhi |- *. lia. }
      assert (Hv : nth (Z.to_nat j) fp 0%R = last fp 0%R).
      { rewrite last_as_nth_R, <- Hlen. f_equal. lia. }
      rewrite Hv.
      split; [right; right; left; repeat split; assumption |].
      split; [intros H; lia | intros _ H; lia].
    + apply Z.eqb_neq in Hend.
      assert (Hh : key < item xp (j + 1)) by (apply Hnext; lia).
      assert (HD : (IZR (item xp (j + 1)) - IZR (item xp j) <> 0)%R).
      { apply Rgt_not_eq, Rlt_gt, Rlt_0_minus, IZR_lt. lia. }
      assert (Hline : (if item xp j =? key then nth (Z.to_nat j) fp 0%R
                       else ((nth (Z.to_nat (j + 1)) fp 0 - nth (Z.to_nat j) fp 0)
                             / (IZR (item xp (j + 1)) - IZR (item xp j))
                             * (IZR key - IZR (item xp j))
                             + nth (Z.to_nat j) fp 0)%R) =
                      line_through (item xp j) (item xp (j + 1))
                                   (nth (Z.to_nat j) fp 0%R)
                                   (nth (Z.to_nat (j + 1)) fp 0%R) key).
      { unfold line_through. destruct (item xp j =? key) eqn:He.
        - apply Z.eqb_eq in He. rewrite <- He. field. exact HD.
        - field. exact HD. }
      rewrite Hline.
      split; [| split; [intros H; lia | intros _ H; lia]].
      right; right; right. exists (Z.to_nat j).
      assert (HS : S (Z.to_nat j) = Z.to_nat (j + 1)) by lia.
      rewrite HS. fold (item xp j). fold (item xp (j + 1)).
      split; [lia |]. split; [lia | reflexivity].
Qed.

Lemma resampled_length (x : list Z) (y : list R) (samples : Z) :
  0 <= samples -> List.length (resampled x y samples) = Z.to_nat samples.
Proof.
  intros H. unfold resampled. rewrite interp_all_length. now apply grid_length.
Qed.

Lemma normalized_length (x : list Z) (y : list R) (samples : Z) :
  0 <= samples -> List.length (normalized x y samples) = Z.to_nat samples.
Proof.
  intros H. unfold normalized, normalize. rewrite length_map.
  now apply resampled_length.
Qed.

Lemma residuals_labels (x : list Z) (y : list R) (samples : Z) :
  map fst (residuals x y samples) = catalog_labels.
Proof. reflexivity. Qed.

Lemma keep_smaller_In {A : Type} (key : A -> fl) (t : list A) : forall a : A,
  In (fold_left (keep_smaller key) t a) (a :: t).
Proof.
  induction t as [| b t IH]; intros a; simpl; [auto |].
  specialize (IH (keep_smaller key a b)). simpl in IH.
  destruct IH as [IH | IH]; [| auto].
  rewrite <- IH. unfold keep_smaller. destruct (flt (key b) (key a)); auto.
Qed.

(** A usable input runs to the end: this is all the run prints and what it
    returns. *)
Lemma complexity_phase_usable (x : list Z) (y : list R) (samples : Z) (v : nat) :
  usable x y samples ->
  complexity_phase x y samples v =
  (complexity_messages x y samples v, Ok (fst (winner (residuals x y samples)))).
Proof.
  intros (Hx & Hlen & Hs).
  destruct x as [| x0 xt]; [contradiction |].
  destruct y as [| y0 yt]; [discriminate |].
  unfold complexity_phase, complexity_messages, residuals, normalized, resampled, grid.
  destruct (linspace_ok (value_or (np_min_Z (x0 :: xt)) 0)
              (value_or (np_max_Z (x0 :: xt)) 0) samples ltac:(lia))
    as [xx [Hxx Hxxlen]].
  cbn [value_or np_min_Z np_max_Z] in *. rewrite Hxx. cbn [value_or].
  destruct xx as [| g0 gt]; [simpl in Hxxlen; lia |].
  unfold bind, lift, verbose, ret, np_min_Z, np_max_Z. rewrite Hxx.
  unfold np_interp. rewrite Hlen, Nat.eqb_refl. cbn [negb]. cbv iota.
  pose proof (interp_all_length (x0 :: xt) (y0 :: yt) (g0 :: gt)) as Hyl.
  destruct (interp_all (x0 :: xt) (y0 :: yt) (g0 :: gt)) as [| a t];
    [discriminate Hyl |].
  unfold np_min_R, np_max_R, py_min_R, py_min_by_key, winner.
  cbn [value_or]. unfold least_squares_results, complexity. cbn [map hd tl].
  destruct (2 <=? v)%nat, (1 <=? v)%nat; reflexivity.
Qed.

(** Any other input raises [ValueError] before a label is chosen. *)
Lemma complexity_phase_unusable (x : list Z) (y : list R) (samples : Z) (v : nat) :
  ~ usable x y samples ->
  outcome (complexity_phase x y samples) v = Raise ValueError.
Proof.
  intros Hn. unfold complexity_phase.
  rewrite outcome_bind, outcome_verbose, outcome_bind, outcome_lift.
  destruct x as [| x0 xt]; [reflexivity |]. simpl np_min_Z. cbv iota.
  rewrite outcome_bind, outcome_lift. simpl np_max_Z. cbv iota.
  rewrite outcome_bind, outcome_lift.
  unfold np_linspace_int.
  destruct (samples <? 0) eqn:Hneg; [reflexivity |].
  apply Z.ltb_ge in Hneg.
  assert (Hrest : forall xx : list Z,
             List.length xx = Z.to_nat samples ->
             outcome
               (yy <- lift (np_interp xx (x0 :: xt) y);;
                min_y <- lift (np_min_R yy);;
                max_y <- lift (np_max_R yy);;
                (let norm_x := np_arange 1 (samples + 1) in
                 min_raw <- lift (py_min_R y);;
                 (let norm_y := normalize yy min_raw min_y max_y in
                  verbose (NormalizedX norm_x) 2;;;
                  verbose (NormalizedY norm_y) 2;;;
                  (let res := least_squares_results norm_x norm_y (complexity samples) in
                   verbose (LeastSquaresResults res) 1;;;
                   best <- lift (py_min_by_key snd res);; ret (fst best))))) v =
             Raise ValueError).
  { intros xx Hxx. rewrite outcome_bind, outcome_lift. unfold np_interp.
    destruct (List.length (x0 :: xt) =? List.length y)%nat eqn:Hlen;
      [| reflexivity].
    simpl negb. cbv iota. apply Nat.eqb_eq in Hlen.
    assert (Hs : samples = 0).
    { destruct (Z.eq_dec samples 0) as [| Hnz]; [assumption |].
      exfalso. apply Hn. repeat split; [discriminate | assumption | lia]. }
    subst samples. destruct xx; [| discriminate Hxx].
    assert (Hyy : interp_all (x0 :: xt) y [] = []) by (destruct xt; reflexivity).
    rewrite Hyy. reflexivity. }
  destruct (samples =? 1) eqn:Hone.
  - apply Z.eqb_eq in Hone. subst samples. apply Hrest. reflexivity.
  - apply Hrest. rewrite length_map, np_arange_length. f_equal. lia.
Qed.

(** ** The order [flt] *)

Ltac flt_cases :=
  unfold flt, Rltb in *;
  repeat match goal with
         | |- context [Rlt_dec ?a ?b] => destruct (Rlt_dec a b)
         | H : context [Rlt_dec ?a ?b] |- _ => destruct (Rlt_dec a b)
         end;
  simpl in *; try reflexivity; try discriminate; try lra.

Lemma flt_irrefl (a : fl) : flt a a = false.
Proof. destruct a; flt_cases. Qed.

Lemma flt_trans (a b c : fl) : flt a b = true -> flt b c = true -> flt a c = true.
Proof. destruct a, b, c; intros; flt_cases. Qed.

(** Below something that is at most a number is below that number. *)
Lemma flt_le_trans (e b p : fl) :
  flt e b = true -> flt p b = false -> is_nan p = false -> flt e p = true.
Proof. destruct e, b, p; intros; flt_cases. Qed.

Lemma flt_true_left (a b : fl) : flt a b = true -> is_nan a = false /\ a <> PInf.
Proof. destruct a, b; intros; flt_cases; split; try reflexivity; discriminate. Qed.

(** ** min(res, key=...) *)

Section FirstMinimum.

Context {A : Type} (key : A -> fl).

Lemma first_minimum_step (seen : list A) (k : nat) (best item : A) :
  first_minimum_of key seen k best ->
  exists k', first_minimum_of key (seen ++ [item]) k' (keep_smaller key best item).
Proof.
  intros (Hk & Hmin & Hfirst).
  assert (Hklt : (k < List.length seen)%nat).
  { apply nth_error_Some. rewrite Hk. discriminate. }
  unfold keep_smaller. destruct (flt (key item) (key best)) eqn:Hlt.
  - exists (List.length seen). repeat split.
    + rewrite nth_error_app2 by lia. now rewrite Nat.sub_diag.
    + intros e He. apply in_app_or in He. destruct He as [He | [<- | []]].
      * destruct (flt (key e) (key item)) eqn:Hcontra; [| reflexivity].
        rewrite <- (Hmin e He). symmetry. eapply flt_trans; eassumption.
      * apply flt_irrefl.
    + intros j e Hj He Hnan. rewrite nth_error_app1 in He by assumption.
      apply flt_le_trans with (b := key best); try assumption.
      apply Hmin. eapply nth_error_In. eassumption.
  - exists k. repeat split.
    + rewrite nth_error_app1; assumption.
    + intros e He. apply in_app_or in He. destruct He as [He | [<- | []]].
      * now apply Hmin.
      * assumption.
    + intros j e Hj He Hnan. rewrite nth_error_app1 in He by lia.
      eapply Hfirst; eassumption.
Qed.

Lemma first_minimum_fold (t : list A) : forall (seen : list A) (k : nat) (best : A),
  first_minimum_of key seen k best ->
  exists k', first_minimum_of key (seen ++ t) k' (fold_left (keep_smaller key) t best).
Proof.
  induction t as [| item t IH]; intros seen k best H.
  - exists k. now rewrite app_nil_r.
  - destruct (first_minimum_step seen k best item H) as [k1 H1].
    destruct (IH _ _ _ H1) as [k2 H2].
    exists k2. rewrite <- app_assoc in H2. exact H2.
Qed.

Lemma py_min_by_key_first_minimum (a : A) (t : list A) :
  exists k, first_minimum_of key (a :: t) k (fold_left (keep_smaller key) t a).
Proof.
  apply (first_minimum_fold t [a] 0%nat a).
  repeat split.
  - intros e [<- | []]. apply flt_irrefl.
  - intros j e Hj. lia.
Qed.

(** A sufficient test: strictly below everything before, not above
    anything after. *)
Lemma py_min_by_key_at (before after : list A) (w : A) :
  (forall e, In e before -> flt (key w) (key e) = true) ->
  (forall e, In e after -> flt (key e) (key w) = false) ->
  py_min_by_key key (before ++ w :: after) = Ok w.
Proof.
  intros Hb Ha.
  assert (Hstay : forall l : list A,
             (forall e, In e l -> flt (key e) (key w) = false) ->
             fold_left (keep_smaller key) l w = w).
  { induction l as [| e l IH]; intros Hl; [reflexivity |]. simpl.
    unfold keep_smaller at 2. rewrite (Hl e (or_introl eq_refl)).
    apply IH. intros e' He'. apply Hl. now right. }
  destruct before as [| b before]; simpl.
  - f_equal. now apply Hstay.
  - f_equal. rewrite fold_left_app. simpl.
    pose proof (keep_smaller_In key before b) as Hin.
    unfold keep_smaller at 2.
    rewrite (Hb _ Hin). now apply Hstay.
Qed.

End FirstMinimum.

(** ** Which residuals are finite *)

Lemma fadd_fin_inv (a b : fl) :
  is_fin (fadd a b) = true -> is_fin a = true /\ is_fin b = true.
Proof. destruct a, b; simpl; intros H; try discriminate; auto. Qed.

Lemma fsub_fin_inv (a b : fl) :
  is_fin (fsub a b) = true -> is_fin a = true /\ is_fin b = true.
Proof. destruct a, b; simpl; intros H; try discriminate; auto. Qed.

Lemma fsquare_fin_inv (d : fl) : is_fin (fmul d d) = true -> is_fin d = true.
Proof. destruct d; simpl; intros H; try discriminate; auto. Qed.

Lemma fold_fadd_fin_inv (l : list fl) : forall acc : fl,
  is_fin (fold_left fadd l acc) = true ->
  is_fin acc = true /\ Forall (fun e => is_fin e = true) l.
Proof.
  induction l as [| e l IH]; intros acc H; simpl in *; [auto |].
  destruct (IH _ H) as [Hacc Hl]. apply fadd_fin_inv in Hacc. intuition.
Qed.

Lemma fold_fadd_fin (l : list fl) : forall acc : fl,
  is_fin acc = true -> Forall (fun e => is_fin e = true) l ->
  is_fin (fold_left fadd l acc) = true.
Proof.
  induction l as [| e l IH]; intros acc Hacc Hl; simpl; [assumption |].
  inversion Hl; subst. apply IH; [| assumption].
  destruct acc, e; simpl in *; try discriminate; reflexivity.
Qed.

Lemma fold_fadd_squares_not_ninf (l : list fl) : forall acc : fl,
  not_ninf acc -> not_ninf (fold_left fadd (np_square l) acc).
Proof.
  unfold not_ninf.
  induction l as [| d l IH]; intros acc Hacc; simpl; [assumption |].
  apply IH. destruct acc, d; simpl; try discriminate; try congruence;
    unfold signed_inf; repeat match goal with
                              | |- context [if ?c then _ else _] => destruct c
                              end; discriminate.
Qed.

Lemma least_squares_not_ninf (norm_x : list Z) (norm_y : list fl)
    (func : Z -> fl) (coef : fl) :
  least_squares norm_x norm_y func coef <> NInf.
Proof.
  unfold least_squares, np_sum. apply fold_fadd_squares_not_ninf. discriminate.
Qed.

Lemma np_subtract_fin (a : list fl) : forall b : list fl,
  List.length a = List.length b ->
  (Forall (fun e => is_fin e = true) (np_subtract a b) <->
   Forall (fun e => is_fin e = true) a /\ Forall (fun e => is_fin e = true) b).
Proof.
  induction a as [| x a IH]; intros [| y b] Hlen; simpl in *; try discriminate.
  - intuition.
  - injection Hlen as Hlen. specialize (IH b Hlen). split.
    + intros H. inversion H; subst. apply fsub_fin_inv in H2.
      apply IH in H3. intuition.
    + intros [Ha Hb]. inversion Ha; subst. inversion Hb; subst.
      constructor; [| apply IH; auto].
      destruct x, y; simpl in *; try discriminate; reflexivity.
Qed.

Lemma np_square_fin (l : list fl) :
  Forall (fun e => is_fin e = true) (np_square l) <->
  Forall (fun e => is_fin e = true) l.
Proof.
  unfold np_square. rewrite Forall_map. split; apply Forall_impl; intros d H.
  - now apply fsquare_fin_inv.
  - destruct d; simpl in *; try discriminate; reflexivity.
Qed.

Lemma least_squares_fin_iff (samples : Z) (norm_y : list fl)
    (func : Z -> fl) (coef : fl) :
  List.length norm_y = Z.to_nat samples ->
  (is_fin (least_squares (np_arange 1 (samples + 1)) norm_y func coef) = true <->
   Forall (fun e => is_fin e = true) norm_y /\ well_scaled samples func coef).
Proof.
  intros Hlen. unfold least_squares, np_sum.
  assert (Hlen' : List.length norm_y =
                  List.length (rescaled func coef (np_arange 1 (samples + 1)))).
  { unfold rescaled. rewrite length_map, np_arange_length, Hlen. f_equal. lia. }
  assert (Hres : Forall (fun e => is_fin e = true)
                   (rescaled func coef (np_arange 1 (samples + 1))) <->
                 well_scaled samples func coef).
  { unfold rescaled, well_scaled. rewrite Forall_map, Forall_forall.
    split; intros H v Hv.
    - apply H. apply np_arange_In. lia.
    - apply H. apply np_arange_In in Hv. lia. }
  split.
  - intros H. apply fold_fadd_fin_inv in H. destruct H as [_ H].
    apply (proj1 (np_square_fin _)) in H.
    apply (proj1 (np_subtract_fin _ _ Hlen')) in H.
    destruct H as [Hy Hr]. split; [assumption | now apply Hres].
  - intros [Hy Hw]. apply fold_fadd_fin; [reflexivity |].
    apply (proj2 (np_square_fin _)).
    apply (proj2 (np_subtract_fin _ _ Hlen')).
    split; [assumption | now apply Hres].
Qed.

(** A flat resampled curve, in particular a single grid point, leaves no
    finite [norm_y]. *)
Lemma normalize_flat (yy : list R) (min_raw m : R) (e : fl) :
  In e (normalize yy min_raw m m) -> is_fin e = false.
Proof.
  unfold normalize. rewrite in_map_iff. intros [v [<- _]].
  replace (m - m)%R with 0%R by ring.
  destruct (fdiv_by_zero (v - min_raw)) as [-> | [-> | ->]]; reflexivity.
Qed.

Lemma normalized_fin_samples (x : list Z) (y : list R) (samples : Z) :
  1 <= samples ->
  Forall (fun e => is_fin e = true) (normalized x y samples) ->
  2 <= samples.
Proof.
  intros Hs Hall.
  destruct (Z.eq_dec samples 1) as [-> | Hne]; [exfalso | lia].
  unfold normalized in Hall.
  pose proof (resampled_length x y 1 ltac:(lia)) as Hlen.
  destruct (resampled x y 1) as [| a [| b t]]; try discriminate Hlen.
  change (value_or (np_min_R [a]) 0%R) with a in Hall.
  change (value_or (np_max_R [a]) 0%R) with a in Hall.
  rewrite Forall_forall in Hall.
  assert (Hin : In (fdiv (Fin (a - value_or (py_min_R y) 0%R)) (Fin (a - a)))
                   (normalize [a] (value_or (py_min_R y) 0%R) a a))
    by (left; reflexivity).
  pose proof (Hall _ Hin) as Hfin.
  rewrite (normalize_flat _ _ _ _ Hin) in Hfin. discriminate.
Qed.

(** ** Wrap-around of the integer powers *)

Lemma wrap64_zero_iff (z : Z) : wrap64 z = 0 <-> (2 ^ 64 | z).
Proof.
  unfold wrap64. split.
  - intros H.
    pose proof (Z.div_mod (z + 2 ^ 63) (2 ^ 64) ltac:(lia)) as Hdm.
    exists ((z + 2 ^ 63) / 2 ^ 64). lia.
  - intros [q ->]. rewrite Z.add_comm, Z.mod_add by lia.
    rewrite Z.mod_small by lia. lia.
Qed.

Lemma wrap64_cube_zero (n : Z) :
  np_power_int n 2 = 0 -> np_power_int n 3 = 0.
Proof.
  unfold np_power_int. rewrite !wrap64_zero_iff. intros H.
  replace (n ^ 3) with (n * n ^ 2) by ring. now apply Z.divide_mul_r.
Qed.

(** ** Which entries have a finite rescaled shape *)

Lemma fdiv_self_fin (r : R) : is_fin (fdiv (Fin r) (Fin r)) = true -> r <> 0%R.
Proof.
  intros H Hr. subst r. unfold fdiv in H.
  rewrite (Reqb_true 0 0 eq_refl) in H. discriminate.
Qed.

Lemma fdiv_fin_is_fin (a b : R) : b <> 0%R -> is_fin (fdiv (Fin a) (Fin b)) = true.
Proof. intros H. now rewrite fdiv_fin. Qed.

Lemma well_scaled_condition (samples : Z) (k : nat) (label : string)
    (func : Z -> fl) (coef : fl) :
  2 <= samples ->
  nth_error (complexity samples) k = Some (label, (func, coef)) ->
  (well_scaled samples func coef <-> scaling_condition k samples).
Proof.
  intros Hs Hk.
  pose proof (log2_gt_0 samples Hs) as Hlg.
  assert (Hn : (0 < IZR samples)%R) by (apply IZR_lt; lia).
  unfold well_scaled.
  destruct k as [| [| [| [| [| [| [| [| k]]]]]]]];
    try (destruct k; discriminate Hk);
    injection Hk as <- <- <-; simpl scaling_condition.
  - split; [trivial | intros _ v Hv]. apply fdiv_fin_is_fin. lra.
  - split; [trivial | intros _ v Hv]. rewrite !log2_pos by lia.
    apply fdiv_fin_is_fin. lra.
  - split; [trivial | intros _ v Hv]. apply fdiv_fin_is_fin. lra.
  - split; [trivial | intros _ v Hv]. rewrite !log2_pos by lia. simpl.
    apply fdiv_fin_is_fin. apply Rgt_not_eq, Rmult_lt_0_compat; assumption.
  - split.
    + intros H Hz. specialize (H samples ltac:(lia)).
      apply fdiv_self_fin in H. rewrite Hz in H. now apply H.
    + intros Hz v Hv. apply fdiv_fin_is_fin. now apply not_0_IZR.
  - split.
    + intros H Hz. specialize (H samples ltac:(lia)).
      rewrite log2_pos in H by lia. simpl in H.
      apply fdiv_self_fin in H. rewrite Hz in H. apply H. ring.
    + intros Hz v Hv. rewrite !log2_pos by lia. simpl.
      apply fdiv_fin_is_fin. apply Rmult_integral_contrapositive_currified;
        [now apply not_0_IZR | lra].
  - split.
    + intros H Hz. specialize (H samples ltac:(lia)).
      apply fdiv_self_fin in H. rewrite Hz in H. now apply H.
    + intros Hz v Hv. apply fdiv_fin_is_fin. now apply not_0_IZR.
  - split.
    + intros H. specialize (H samples ltac:(lia)).
      destruct (Z_lt_le_dec samples 1024) as [Hlt | Hge]; [assumption |].
      unfold pow2 in H. apply Z.ltb_ge in Hge. rewrite Hge in H. discriminate.
    + intros Hlt v Hv. rewrite !pow2_small by lia. apply fdiv_fin_is_fin.
      pose proof (powerRZ_2_pos samples). lra.
Qed.

Lemma scaling_condition_earlier (j k : nat) (samples : Z) :
  1 <= samples -> (j < k)%nat ->
  scaling_condition k samples -> scaling_condition j samples.
Proof.
  intros Hs Hjk Hk.
  assert (Hsmall : samples < 1024 ->
                   np_power_int samples 2 <> 0 /\ np_power_int samples 3 <> 0).
  { intros Hlt.
    destruct (power_small samples 2 ltac:(lia) ltac:(lia)) as [-> ?].
    destruct (power_small samples 3 ltac:(lia) ltac:(lia)) as [-> ?]. lia. }
  destruct k as [| [| [| [| [| [| [| [| k]]]]]]]]; try contradiction;
    destruct j as [| [| [| [| [| [| [| [| j]]]]]]]]; try lia;
    simpl in *; try tauto;
    try (intros Hz; apply Hk; now apply wrap64_cube_zero).
Qed.

Lemma residuals_nth (x : list Z) (y : list R) (samples : Z) (k : nat)
    (label : string) (z : fl) :
  nth_error (residuals x y samples) k = Some (label, z) ->
  exists func coef,
    nth_error (complexity samples) k = Some (label, (func, coef)) /\
    z = least_squares (np_arange 1 (samples + 1)) (normalized x y samples) func coef.
Proof.
  unfold residuals, least_squares_results. rewrite nth_error_map.
  destruct (nth_error (complexity samples) k) as [[l [func coef]] |];
    simpl; intros H; [| discriminate].
  injection H as <- <-. eauto.
Qed.

(** A finite residual puts finite residuals on every earlier entry. *)
Lemma residuals_fin_earlier (x : list Z) (y : list R) (samples : Z) (j k : nat)
    (ej ek : string * fl) :
  1 <= samples -> (j < k)%nat ->
  nth_error (residuals x y samples) j = Some ej ->
  nth_error (residuals x y samples) k = Some ek ->
  is_fin (snd ek) = true -> is_fin (snd ej) = true.
Proof.
  intros Hs Hjk Hj Hk Hfin.
  destruct ej as [lj zj], ek as [lk zk]. simpl in *.
  destruct (residuals_nth _ _ _ _ _ _ Hj) as (fj & cj & Hcj & ->).
  destruct (residuals_nth _ _ _ _ _ _ Hk) as (fk & ck & Hck & ->).
  pose proof (normalized_length x y samples ltac:(lia)) as Hlen.
  apply (least_squares_fin_iff samples _ _ _ Hlen) in Hfin.
  destruct Hfin as [Hy Hw].
  pose proof (normalized_fin_samples x y samples Hs Hy) as Hs2.
  apply (least_squares_fin_iff samples _ _ _ Hlen). split; [assumption |].
  apply (well_scaled_condition samples j lj fj cj Hs2 Hcj).
  apply (scaling_condition_earlier j k samples Hs Hjk).
  now apply (well_scaled_condition samples k lk fk ck Hs2 Hck).
Qed.

Lemma residuals_not_ninf (x : list Z) (y : list R) (samples : Z) (e : string * fl) :
  In e (residuals x y samples) -> snd e <> NInf.
Proof.
  unfold residuals, least_squares_results. rewrite in_map_iff.
  intros [[l [func coef]] [<- _]]. simpl. apply least_squares_not_ninf.
Qed.

Lemma winner_first_minimum (x : list Z) (y : list R) (samples : Z) :
  1 <= samples ->
  exists k,
    nth_error (residuals x y samples) k = Some (winner (residuals x y samples)) /\
    (forall e, In e (residuals x y samples) ->
               flt (snd e) (snd (winner (residuals x y samples))) = false) /\
    (forall j e, (j < k)%nat -> nth_error (residuals x y samples) j = Some e ->
                 flt (snd (winner (residuals x y samples))) (snd e) = true).
Proof.
  intros Hs.
  remember (residuals x y samples) as res eqn:Hres.
  assert (Hne : res = hd (EmptyString, NaN) res :: tl res).
  { subst res. reflexivity. }
  destruct (py_min_by_key_first_minimum snd (hd (EmptyString, NaN) res) (tl res))
    as (k & Hk & Hmin & Hfirst).
  fold (winner res) in Hk, Hmin, Hfirst. rewrite <- Hne in Hk, Hmin, Hfirst.
  exists k. split; [assumption |]. split; [assumption |].
  intros j e Hj He. apply (Hfirst j e Hj He).
  (* the winner, not being first, is strictly below an item: it is finite,
     and so is every earlier residual *)
  destruct k as [| k]; [lia |].
  assert (Hstrict : flt (snd (winner res)) (snd (hd (EmptyString, NaN) res)) = true
                    \/ is_nan (snd (hd (EmptyString, NaN) res)) = true).
  { destruct (is_nan (snd (hd (EmptyString, NaN) res))) eqn:Hnan; [now right | left].
    apply (Hfirst 0%nat); [lia | now rewrite Hne | assumption]. }
  assert (Hwfin : is_fin (snd (winner res)) = true).
  { destruct Hstrict as [Hlt | Hnan].
    - pose proof (flt_true_left _ _ Hlt) as [Hn Hp].
      assert (Hni : snd (winner res) <> NInf).
      { subst res. eapply residuals_not_ninf, nth_error_In. eassumption. }
      destruct (snd (winner res)); try reflexivity; try discriminate; congruence.
    - (* a NaN at the head is never replaced *)
      exfalso.
      assert (Hhead : flt (snd (hd (EmptyString, NaN) res)) (snd (winner res)) = false).
      { apply Hmin. rewrite Hne at 2. now left. }
      assert (Hstay : forall l b, is_nan (snd b) = true ->
                 fold_left (keep_smaller (@snd string fl)) l b = b).
      { induction l as [| i l IH]; intros b Hb; [reflexivity |]. simpl.
        assert (Hf : flt (snd i) (snd b) = false).
        { destruct (snd b); try discriminate. now destruct (snd i). }
        unfold keep_smaller at 2. rewrite Hf. apply IH. assumption. }
      unfold winner in Hk. rewrite (Hstay _ _ Hnan) in Hk.
      assert (Hdup : nth_error res 0 = Some (hd (EmptyString, NaN) res))
        by (now rewrite Hne).
      assert (Hnd : NoDup (map fst res)).
      { subst res. rewrite residuals_labels.
        repeat constructor; simpl; intuition discriminate. }
      assert (Hfst : nth_error (map fst res) (S k) = nth_error (map fst res) 0).
      { rewrite !nth_error_map, Hk, Hdup. reflexivity. }
      apply (proj1 (NoDup_nth_error _) Hnd) in Hfst; [discriminate |].
      rewrite length_map. apply nth_error_Some. rewrite Hk. discriminate. }
  assert (Hefin : is_fin (snd e) = true).
  { subst res. eapply residuals_fin_earlier; eassumption. }
  destruct (snd e); try discriminate; reflexivity.
Qed.

Lemma classify_usable (x : list Z) (y : list R) (samples : Z) :
  usable x y samples ->
  classify x y samples = Ok (fst (winner (residuals x y samples))).
Proof.
  intros H. unfold classify, outcome.
  now rewrite (complexity_phase_usable x y samples 0 H).
Qed.

Lemma usable_dec (x : list Z) (y : list R) (samples : Z) :
  usable x y samples \/ ~ usable x y samples.
Proof.
  unfold usable. destruct x as [| x0 xt]; [right; intros [H _]; now apply H |].
  destruct (Nat.eq_dec (List.length (x0 :: xt)) (List.length y)) as [Hl | Hl];
    [| right; tauto].
  destruct (Z_lt_le_dec samples 1) as [Hs | Hs]; [right; lia |].
  left. repeat split; [discriminate | assumption ..].
Qed.

(** C7.  On a non-empty sample set of numbers, sizes and durations of one
    length, with a positive sample count, [classify] returns one of the
    eight labels of the catalog.  An empty sample set raises [ValueError],
    and [classify] raises nothing else and on no other input than an empty
    one, sequences of different lengths or a sample count below 1. *)
Theorem classify_total :
  forall (sizes : list Z) (durations : list R) (sample_count : Z),
    (sizes <> [] -> List.length sizes = List.length durations ->
     1 <= sample_count ->
     exists label,
       classify sizes durations sample_count = Ok label /\
       In label ["O(1)"; "O(log n)"; "O(n)"; "O(n log n)"; "O(n^2)";
                 "O(n^2 log n)"; "O(n^3)"; "O(2^n)"]%string) /\
    classify [] durations sample_count = Raise ValueError /\
    (forall e, classify sizes durations sample_count = Raise e ->
               e = ValueError /\
               (sizes = [] \/ List.length sizes <> List.length durations \/
                sample_count < 1)).
Proof.
  intros x y n. split; [| split].
  - intros Hx Hlen Hs.
    assert (Hu : usable x y n) by (repeat split; assumption).
    exists (fst (winner (residuals x y n))). split; [now apply classify_usable |].
    change (In (fst (winner (residuals x y n))) (map fst (residuals x y n))).
    apply in_map. unfold winner. apply keep_smaller_In.
  - reflexivity.
  - intros e He.
    destruct x as [| x0 xt]; [injection He as <-; auto |].
    destruct (Nat.eq_dec (List.length (x0 :: xt)) (List.length y)) as [Hlen | Hlen];
      [| split; [| tauto]].
    + destruct (Z_lt_le_dec n 1) as [Hs | Hs]; [split; [| tauto] |].
      * unfold classify in He.
        rewrite complexity_phase_unusable in He
          by (intros (_ & _ & Hc); lia).
        now injection He as <-.
      * rewrite classify_usable in He by (repeat split; [discriminate | assumption ..]).
        discriminate.
    + unfold classify in He.
      rewrite complexity_phase_unusable in He by (intros (_ & Hc & _); contradiction).
      now injection He as <-.
Qed.

Lemma classify_total_witness :
  scenario_sizes <> [] /\
  List.length scenario_sizes = List.length scenario_durations /\
  1 <= 4 /\
  exists label,
    classify scenario_sizes scenario_durations 4 = Ok label /\
    In label ["O(1)"; "O(log n)"; "O(n)"; "O(n log n)"; "O(n^2)";
              "O(n^2 log n)"; "O(n^3)"; "O(2^n)"]%string.
Proof.
  assert (H1 : scenario_sizes <> []) by discriminate.
  assert (H2 : List.length scenario_sizes = List.length scenario_durations)
    by reflexivity.
  assert (H3 : 1 <= 4) by lia.
  repeat (split; [assumption |]).
  destruct (classify_total scenario_sizes scenario_durations 4) as [Hok _].
  exact (Hok H1 H2 H3).
Defined.

(** C10.  For the label O(1), [predict] returns the single fitted parameter
    unchanged at every query point, at any verbosity: the raw function of
    the constant class ignores [x]. *)
Theorem predict_constant :
  forall (x : Z) (a : R) (verbosity : nat),
    predict "O(1)" x [a] = Ok (Fin a) /\
    outcome (predict_phase "O(1)" x [a]) verbosity = Ok (Fin a).
Proof.
  intros x a verbosity. split; [reflexivity |].
  unfold predict_phase. rewrite outcome_bind, outcome_verbose. reflexivity.
Qed.

(** ** Scaling the durations *)

(** In the arithmetic of this embedding, where a product or a quotient of
    reals is exact, a positive factor on every duration cancels in
    [norm_y] and the label is unchanged.  float64 rounds and overflows:
    the lemmas of this section say nothing of a label that a rounding at a
    tie or an overflow of [max_y - min_y] decides. *)

Section Scaling.

Variable c : R.
Hypothesis c_pos : (0 < c)%R.

Lemma nth_scale (l : list R) (j : nat) :
  nth j (scale c l) 0%R = (c * nth j l 0)%R.
Proof.
  revert j. induction l as [| a l IH]; intros [| j]; simpl; try ring; auto.
Qed.

Lemma last_scale (l : list R) : last (scale c l) 0%R = (c * last l 0)%R.
Proof.
  induction l as [| a [| b l] IH]; simpl in *; try ring; auto.
Qed.

Lemma interp_at_scale (xp : list Z) (fp : list R) (j key : Z) :
  interp_at xp (scale c fp) j key = (c * interp_at xp fp j key)%R.
Proof.
  unfold interp_at. cbv zeta. rewrite !nth_scale, last_scale.
  destruct (j =? -1); [reflexivity |].
  destruct (j =? Z.of_nat (List.length xp)); [reflexivity |].
  destruct (j =? Z.of_nat (List.length xp) - 1); [reflexivity |].
  destruct (item xp j =? key); [reflexivity |].
  unfold Rdiv. ring.
Qed.

Lemma interp_loop_scale (xp : list Z) (fp : list R) (x : list Z) :
  forall j : Z,
    interp_loop xp (scale c fp) j x = scale c (interp_loop xp fp j x).
Proof.
  induction x as [| key rest IH]; intros j; [reflexivity |].
  cbn [interp_loop]. cbv zeta. rewrite interp_at_scale, IH. reflexivity.
Qed.

Lemma interp_all_scale (xp : list Z) (fp : list R) (x : list Z) :
  interp_all xp (scale c fp) x = scale c (interp_all xp fp x).
Proof.
  unfold interp_all. destruct xp as [| p0 [| p1 xp']];
    try apply interp_loop_scale.
  cbv zeta. rewrite nth_scale, last_scale. unfold scale. rewrite map_map.
  apply map_ext. intros key.
  destruct (key <? p0); [reflexivity |]. destruct (key >? p0); reflexivity.
Qed.

Lemma Rmin_scale (a b : R) : Rmin (c * a) (c * b) = (c * Rmin a b)%R.
Proof. unfold Rmin. destruct (Rle_dec (c * a) (c * b)), (Rle_dec a b); nra. Qed.

Lemma Rmax_scale (a b : R) : Rmax (c * a) (c * b) = (c * Rmax a b)%R.
Proof. unfold Rmax. destruct (Rle_dec (c * a) (c * b)), (Rle_dec a b); nra. Qed.

Lemma np_min_R_scale (l : list R) :
  value_or (np_min_R (scale c l)) 0%R = (c * value_or (np_min_R l) 0)%R.
Proof.
  destruct l as [| a t]; simpl; [ring |].
  revert a. induction t as [| b t IH]; intros a; simpl; [reflexivity |].
  rewrite Rmin_scale. apply IH.
Qed.

Lemma np_max_R_scale (l : list R) :
  value_or (np_max_R (scale c l)) 0%R = (c * value_or (np_max_R l) 0)%R.
Proof.
  destruct l as [| a t]; simpl; [ring |].
  revert a. induction t as [| b t IH]; intros a; simpl; [reflexivity |].
  rewrite Rmax_scale. apply IH.
Qed.

Lemma py_min_R_scale (l : list R) :
  value_or (py_min_R (scale c l)) 0%R = (c * value_or (py_min_R l) 0)%R.
Proof.
  destruct l as [| a t]; simpl; [ring |].
  revert a. induction t as [| b t IH]; intros a; simpl; [reflexivity |].
  replace (if Rltb (c * b) (c * a) then (c * b)%R else (c * a)%R)
    with (c * (if Rltb b a then b else a))%R; [apply IH |].
  unfold Rltb. destruct (Rlt_dec b a), (Rlt_dec (c * b) (c * a));
    try reflexivity; nra.
Qed.

Lemma fdiv_scale (a b : R) :
  fdiv (Fin (c * a)) (Fin (c * b)) = fdiv (Fin a) (Fin b).
Proof.
  unfold fdiv, Reqb, Rltb.
  destruct (Req_dec_T (c * b) 0), (Req_dec_T b 0); try nra.
  - destruct (Req_dec_T (c * a) 0), (Req_dec_T a 0); try nra; try reflexivity.
    destruct (Rlt_dec (c * a) 0), (Rlt_dec a 0); try nra; reflexivity.
  - f_equal. field. split; lra.
Qed.

Lemma resampled_scale (x : list Z) (y : list R) (samples : Z) :
  resampled x (scale c y) samples = scale c (resampled x y samples).
Proof.
  unfold resampled. apply interp_all_scale.
Qed.

Lemma normalized_scale (x : list Z) (y : list R) (samples : Z) :
  normalized x (scale c y) samples = normalized x y samples.
Proof.
  unfold normalized. rewrite resampled_scale.
  rewrite np_min_R_scale, np_max_R_scale, py_min_R_scale.
  unfold normalize, scale. rewrite map_map. apply map_ext. intros v.
  rewrite <- !Rmult_minus_distr_l. apply fdiv_scale.
Qed.

Lemma classify_scale (x : list Z) (y : list R) (samples : Z) :
  classify x (scale c y) samples = classify x y samples.
Proof.
  assert (Hu : usable x (scale c y) samples <-> usable x y samples).
  { unfold usable, scale. rewrite length_map. tauto. }
  destruct (usable_dec x y samples) as [H | H].
  - rewrite !classify_usable by (first [assumption | apply Hu; assumption]).
    unfold residuals. now rewrite normalized_scale.
  - unfold classify. rewrite !complexity_phase_unusable; [reflexivity | | ];
      try assumption. now rewrite Hu.
Qed.

End Scaling.

(** ** Minima and maxima *)

Lemma fold_Rmin_minimum (t : list R) : forall a : R,
  minimum_of (fold_left Rmin t a) (a :: t).
Proof.
  unfold minimum_of.
  induction t as [| b t IH]; intros a; simpl.
  - split; [auto | intros e [<- | []]; lra].
  - destruct (IH (Rmin a b)) as [Hin Hle]. split.
    + destruct Hin as [Hin | Hin]; [| auto].
      rewrite <- Hin. unfold Rmin. destruct (Rle_dec a b); auto.
    + intros e [<- | [<- | He]].
      * eapply Rle_trans; [apply Hle; now left | apply Rmin_l].
      * eapply Rle_trans; [apply Hle; now left | apply Rmin_r].
      * apply Hle. now right.
Qed.

Lemma fold_Rmax_maximum (t : list R) : forall a : R,
  maximum_of (fold_left Rmax t a) (a :: t).
Proof.
  unfold maximum_of.
  induction t as [| b t IH]; intros a; simpl.
  - split; [auto | intros e [<- | []]; lra].
  - destruct (IH (Rmax a b)) as [Hin Hle]. split.
    + destruct Hin as [Hin | Hin]; [| auto].
      rewrite <- Hin. unfold Rmax. destruct (Rle_dec a b); auto.
    + intros e [<- | [<- | He]].
      * eapply Rle_trans; [apply Rmax_l | apply Hle; now left].
      * eapply Rle_trans; [apply Rmax_r | apply Hle; now left].
      * apply Hle. now right.
Qed.

Lemma fold_builtin_min_minimum (t : list R) : forall a : R,
  minimum_of (fold_left (fun best item => if Rltb item best then item else best) t a)
             (a :: t).
Proof.
  unfold minimum_of.
  induction t as [| b t IH]; intros a; simpl.
  - split; [auto | intros e [<- | []]; lra].
  - destruct (IH (if Rltb b a then b else a)) as [Hin Hle]. split.
    + destruct Hin as [Hin | Hin]; [| auto].
      rewrite <- Hin. destruct (Rltb b a); auto.
    + assert (Hab : ((if Rltb b a then b else a) <= a)%R /\
                    ((if Rltb b a then b else a) <= b)%R).
      { unfold Rltb. destruct (Rlt_dec b a); lra. }
      intros e [<- | [<- | He]].
      * eapply Rle_trans; [apply Hle; now left | apply Hab].
      * eapply Rle_trans; [apply Hle; now left | apply Hab].
      * apply Hle. now right.
Qed.




(** ** Concrete sample sets *)

Ltac list_by_field :=
  repeat (apply (f_equal2 cons); [try reflexivity; try field; try lra |]);
  try reflexivity.

Lemma minimum_unique (l : list R) (m m' : R) :
  minimum_of m l -> minimum_of m' l -> m = m'.
Proof. intros [Hi Hl] [Hi' Hl']. apply Rle_antisym; auto. Qed.

Lemma maximum_unique (l : list R) (m m' : R) :
  maximum_of m l -> maximum_of m' l -> m = m'.
Proof. intros [Hi Hl] [Hi' Hl']. apply Rle_antisym; auto. Qed.

Lemma np_min_R_eq (l : list R) (m : R) : minimum_of m l -> np_min_R l = Ok m.
Proof.
  destruct l as [| a t]; intros H; [destruct H as [[] _] |].
  simpl. f_equal. eapply minimum_unique; [apply fold_Rmin_minimum | exact H].
Qed.

Lemma np_max_R_eq (l : list R) (m : R) : maximum_of m l -> np_max_R l = Ok m.
Proof.
  destruct l as [| a t]; intros H; [destruct H as [[] _] |].
  simpl. f_equal. eapply maximum_unique; [apply fold_Rmax_maximum | exact H].
Qed.

Lemma py_min_R_eq (l : list R) (m : R) : minimum_of m l -> py_min_R l = Ok m.
Proof.
  destruct l as [| a t]; intros H; [destruct H as [[] _] |].
  simpl. f_equal. eapply minimum_unique; [apply fold_builtin_min_minimum | exact H].
Qed.

Ltac extremum :=
  split; [simpl; tauto |];
  let e := fresh "e" in
  let He := fresh "He" in
  intros e He; simpl in He;
  repeat (destruct He as [<- | He]; [lra |]); contradiction.

(** ** Four grid points *)

Lemma ln_4 : ln 4 = (2 * ln 2)%R.
Proof. replace 4%R with (2 * 2)%R by lra. rewrite ln_mult by lra. ring. Qed.

Lemma lg3_bounds : (3 / 2 < lg3 < 8 / 5)%R.
Proof.
  pose proof ln2_pos as H2. unfold lg3.
  assert (H8 : ln 8 = (3 * ln 2)%R).
  { replace 8%R with (2 * (2 * 2))%R by lra. rewrite !ln_mult by lra. ring. }
  assert (H9 : ln 9 = (2 * ln 3)%R).
  { replace 9%R with (3 * 3)%R by lra. rewrite ln_mult by lra. ring. }
  assert (H243 : ln 243 = (5 * ln 3)%R).
  { replace 243%R with (3 * (3 * (3 * (3 * 3))))%R by lra.
    rewrite !ln_mult by lra. ring. }
  assert (H256 : ln 256 = (8 * ln 2)%R).
  { replace 256%R with (2 * (2 * (2 * (2 * (2 * (2 * (2 * 2)))))))%R by lra.
    rewrite !ln_mult by lra. ring. }
  assert (Hlo : (ln 8 < ln 9)%R) by (apply ln_increasing; lra).
  assert (Hhi : (ln 243 < ln 256)%R) by (apply ln_increasing; lra).
  assert (Hq : (ln 3 / ln 2 * ln 2 = ln 3)%R) by (field; lra).
  split; apply Rmult_lt_reg_r with (r := ln 2); try assumption; rewrite Hq; lra.
Qed.

Lemma four_point_residuals (a b c d : R) :
  least_squares_results [1; 2; 3; 4] [Fin a; Fin b; Fin c; Fin d] (complexity 4) =
  [ ("O(1)"%string, Fin (squares4 a b c d (1/2) (1/2) (1/2) (1/2)));
    ("O(log n)"%string, Fin (squares4 a b c d 0 (1/2) (lg3 / 2) 1));
    ("O(n)"%string, Fin (squares4 a b c d (1/4) (2/4) (3/4) 1));
    ("O(n log n)"%string, Fin (squares4 a b c d 0 (2/8) (3 * lg3 / 8) 1));
    ("O(n^2)"%string, Fin (squares4 a b c d (1/16) (4/16) (9/16) 1));
    ("O(n^2 log n)"%string, Fin (squares4 a b c d 0 (4/32) (9 * lg3 / 32) 1));
    ("O(n^3)"%string, Fin (squares4 a b c d (1/64) (8/64) (27/64) 1));
    ("O(2^n)"%string, Fin (squares4 a b c d (2/16) (4/16) (8/16) 1)) ].
Proof.
  pose proof ln2_pos as H2.
  unfold least_squares_results, complexity. cbn [map].
  unfold least_squares, rescaled. cbn [map].
  rewrite !log2_pos by lia.
  change (np_power_int 1 2) with 1. change (np_power_int 2 2) with 4.
  change (np_power_int 3 2) with 9. change (np_power_int 4 2) with 16.
  change (np_power_int 1 3) with 1. change (np_power_int 2 3) with 8.
  change (np_power_int 3 3) with 27. change (np_power_int 4 3) with 64.
  rewrite !pow2_small by lia.
  unfold of_Z. cbn [fmul].
  rewrite ln_1, ln_4.
  replace (powerRZ 2 1) with 2%R by (simpl; lra).
  replace (powerRZ 2 2) with 4%R by (simpl; lra).
  replace (powerRZ 2 3) with 8%R by (simpl; lra).
  replace (powerRZ 2 4) with 16%R by (simpl; lra).
  rewrite !fdiv_fin
    by (try lra; try (apply Rgt_not_eq; unfold Rdiv;
                      rewrite ?Rmult_assoc, ?Rinv_r by lra; lra)).
  cbn [np_subtract fsub fadd fneg np_square map fmul np_sum fold_left].
  unfold squares4, lg3.
  repeat (apply (f_equal2 cons); [apply f_equal; apply f_equal; field; lra |]).
  reflexivity.
Qed.

(** Runs the searches of [np.interp] on concrete points. *)
Ltac search_values :=
  repeat match goal with
         | |- context [binary_search_with_guess ?k ?a ?g] =>
             let r := eval vm_compute in (binary_search_with_guess k a g) in
             change (binary_search_with_guess k a g) with r
         end;
  unfold interp_at, item; cbv zeta;
  repeat match goal with
         | |- context [Z.to_nat ?k] =>
             let r := eval vm_compute in (Z.to_nat k) in
             change (Z.to_nat k) with r
         end.

Lemma scenario_normalized :
  normalized scenario_sizes scenario_durations 4 =
  [Fin 0; Fin (2 / 7); Fin (4 / 7); Fin 1].
Proof.
  assert (Hyy : resampled scenario_sizes scenario_durations 4 =
                [(1 / 2)%R; (3 / 2)%R; (5 / 2)%R; 4%R]).
  { unfold resampled.
    change (grid scenario_sizes 4) with [1; 3; 5; 8].
    unfold interp_all, scenario_sizes, scenario_durations.
    cbn [interp_loop]. cbv zeta. search_values.
    cbn -[Rdiv Rmult Rplus Rminus IZR].
    list_by_field. }
  unfold normalized. rewrite Hyy.
  rewrite (np_min_R_eq _ (1 / 2)%R) by extremum.
  rewrite (np_max_R_eq _ 4%R) by extremum.
  rewrite (py_min_R_eq _ (1 / 2)%R) by (unfold scenario_durations; extremum).
  unfold normalize, value_or. cbn [map].
  rewrite !fdiv_fin by lra.
  repeat (apply (f_equal2 cons); [f_equal; lra |]). reflexivity.
Qed.

Ltac below := apply Rltb_true; unfold squares4; pose proof lg3_bounds; nra.
Ltac not_below := apply Rltb_false; unfold squares4; pose proof lg3_bounds; nra.

Lemma winner_at (before after : list (string * fl)) (w : string * fl) :
  (forall e, In e before -> flt (snd w) (snd e) = true) ->
  (forall e, In e after -> flt (snd e) (snd w) = false) ->
  winner (before ++ w :: after) = w.
Proof.
  intros Hb Ha. pose proof (py_min_by_key_at snd before after w Hb Ha) as H.
  unfold winner. destruct before as [| b before]; simpl in *; now injection H.
Qed.

Lemma scenario_winner :
  classify scenario_sizes scenario_durations 4 = Ok "O(n log n)"%string.
Proof.
  unfold classify, outcome.
  rewrite complexity_phase_usable
    by (split; [discriminate | split; [reflexivity | lia]]).
  cbn [snd]. f_equal.
  unfold residuals. rewrite scenario_normalized.
  change (np_arange 1 (4 + 1)) with [1; 2; 3; 4].
  rewrite four_point_residuals.
  match goal with
  | |- fst (winner [?e1; ?e2; ?e3; ?e4; ?e5; ?e6; ?e7; ?e8]) = _ =>
      change [e1; e2; e3; e4; e5; e6; e7; e8]
        with ([e1; e2; e3] ++ e4 :: [e5; e6; e7; e8])
  end.
  rewrite winner_at; [reflexivity | |].
  - intros e He. simpl in He.
    repeat (destruct He as [<- | He]; [cbn [snd flt]; below |]). contradiction.
  - intros e He. simpl in He.
    repeat (destruct He as [<- | He]; [cbn [snd flt]; not_below |]). contradiction.
Qed.

Lemma scenario_records_read (py_int : string -> option Z)
    (py_float : string -> option R) (verbosity : nat) :
  py_int "1"%string = Some 1 -> py_int "2"%string = Some 2 ->
  py_int "4"%string = Some 4 -> py_int "8"%string = Some 8 ->
  py_float "0.5"%string = Some (1 / 2)%R -> py_float "1.0"%string = Some 1%R ->
  py_float "2.0"%string = Some 2%R -> py_float "4.0"%string = Some 4%R ->
  read_records py_int py_float " " scenario_records [] [] verbosity =
  ([], Ok (scenario_sizes, scenario_durations)).
Proof.
  intros I1 I2 I4 I8 F1 F2 F4 F8.
  unfold scenario_records. cbn [read_records].
  unfold bind, lift.
  change (py_split "1 0.5" " ") with (@Ok (list string) ["1"; "0.5"]%string).
  change (py_split "2 1.0" " ") with (@Ok (list string) ["2"; "1.0"]%string).
  change (py_split "4 2.0" " ") with (@Ok (list string) ["4"; "2.0"]%string).
  change (py_split "8 4.0" " ") with (@Ok (list string) ["8"; "4.0"]%string).
  cbn [unpack_pair fst snd].
  rewrite I1, I2, I4, I8, F1, F2, F4, F8. reflexivity.
Qed.

(** C2, amended.  The records "1 0.5", "2 1.0", "4 2.0", "8 4.0", split on
    the default space delimiter and classified with a sample count of 4,
    get the label O(n log n). *)
Theorem scenario_classified :
  forall (py_int : string -> option Z) (py_float : string -> option R)
         (verbosity : nat),
    py_int "1"%string = Some 1 -> py_int "2"%string = Some 2 ->
    py_int "4"%string = Some 4 -> py_int "8"%string = Some 8 ->
    py_float "0.5"%string = Some (1 / 2)%R -> py_float "1.0"%string = Some 1%R ->
    py_float "2.0"%string = Some 2%R -> py_float "4.0"%string = Some 4%R ->
    exists (sizes : list Z) (durations : list R),
      outcome (read_records py_int py_float " " scenario_records [] []) verbosity =
        Ok (sizes, durations) /\
      outcome (complexity_phase sizes durations 4) verbosity =
        Ok "O(n log n)"%string /\
      classify sizes durations 4 = Ok "O(n log n)"%string.
Proof.
  intros py_int py_float verbosity I1 I2 I4 I8 F1 F2 F4 F8.
  exists scenario_sizes, scenario_durations.
  split; [| split].
  - unfold outcome.
    now rewrite (scenario_records_read py_int py_float verbosity
                   I1 I2 I4 I8 F1 F2 F4 F8).
  - pose proof scenario_winner as H. unfold classify, outcome in *.
    rewrite complexity_phase_usable in *
      by (split; [discriminate | split; [reflexivity | lia]]).
    exact H.
  - exact scenario_winner.
Qed.

Lemma scenario_classified_witness :
  scenario_int "1"%string = Some 1 /\ scenario_int "2"%string = Some 2 /\
  scenario_int "4"%string = Some 4 /\ scenario_int "8"%string = Some 8 /\
  scenario_float "0.5"%string = Some (1 / 2)%R /\
  scenario_float "1.0"%string = Some 1%R /\
  scenario_float "2.0"%string = Some 2%R /\
  scenario_float "4.0"%string = Some 4%R /\
  exists (sizes : list Z) (durations : list R),
    outcome (read_records scenario_int scenario_float " " scenario_records [] [])
            0%nat = Ok (sizes, durations) /\
    classify sizes durations 4 = Ok "O(n log n)"%string.
Proof.
  repeat (split; [reflexivity |]).
  destruct (scenario_classified scenario_int scenario_float 0%nat
              eq_refl eq_refl eq_refl eq_refl eq_refl eq_refl eq_refl eq_refl)
    as (sizes & durations & Hread & _ & Hlabel).
  exists sizes, durations. split; assumption.
Defined.

(** C2 as stated fails: the scenario's samples are not labelled O(n). *)
Lemma scenario_not_linear :
  classify scenario_sizes scenario_durations 4 <> Ok "O(n)"%string.
Proof. rewrite scenario_winner. discriminate. Qed.

(** ** The order of the pairs *)





(** ** Verbosity *)

Lemma quiet_ret {A : Type} (a : A) : verbosity_independent (ret a).
Proof. intros v1 v2. split; reflexivity. Qed.

Lemma quiet_lift {A : Type} (r : result A) : verbosity_independent (lift r).
Proof. intros v1 v2. split; reflexivity. Qed.

Lemma quiet_verbose_result (msg : message) : verbosity_independent (verbose msg 0).
Proof. intros v1 v2. split; reflexivity. Qed.

Lemma quiet_verbose_diagnostic (msg : message) (level : nat) :
  is_result msg = false -> verbosity_independent (verbose msg level).
Proof.
  intros Hm v1 v2. unfold outcome, printed, results, verbose.
  destruct (level <=? v1)%nat, (level <=? v2)%nat; simpl; rewrite ?Hm; split; reflexivity.
Qed.

Lemma quiet_bind {A B : Type} (m : Run A) (f : A -> Run B) :
  verbosity_independent m ->
  (forall a, verbosity_independent (f a)) ->
  verbosity_independent (bind m f).
Proof.
  intros Hm Hf v1 v2. destruct (Hm v1 v2) as [Ho Hp].
  unfold outcome, printed, results, bind in *.
  destruct (m v1) as [out1 r1], (m v2) as [out2 r2]. simpl in Ho, Hp. subst r2.
  destruct r1 as [a | e]; [| split; [reflexivity | assumption]].
  destruct (Hf a v1 v2) as [Ho' Hp'].
  unfold outcome, printed, results in Ho', Hp'.
  destruct (f a v1) as [o1 s1], (f a v2) as [o2 s2]. simpl in *.
  split; [assumption |]. rewrite !filter_app. now f_equal.
Qed.

Ltac quiet :=
  repeat lazymatch goal with
         | |- verbosity_independent (bind _ _) => apply quiet_bind; [| intros ?]
         | |- verbosity_independent (ret _) => apply quiet_ret
         | |- verbosity_independent (lift _) => apply quiet_lift
         | |- verbosity_independent (verbose _ 0) => apply quiet_verbose_result
         | |- verbosity_independent (verbose _ _) =>
             apply quiet_verbose_diagnostic; reflexivity
         end.

Lemma quiet_complexity_phase (x : list Z) (y : list R) (samples : Z) :
  verbosity_independent (complexity_phase x y samples).
Proof. unfold complexity_phase. quiet. Qed.

Lemma quiet_predict_phase (label : string) (x : Z) (popt : list R) :
  verbosity_independent (predict_phase label x popt).
Proof. unfold predict_phase. quiet. Qed.

Section PipelineProperties.

Variable curve_fit :
  raw_function -> list Z -> list R -> result (list R * list (list R)).
Variable py_int : string -> option Z.
Variable py_float : string -> option R.

Lemma quiet_regression_phase (x : list Z) (y : list R) (label : string) :
  verbosity_independent (regression_phase curve_fit x y label).
Proof. unfold regression_phase. quiet. Qed.

Lemma quiet_read_records (delimiter : string) (src : list string) :
  forall (xs : list Z) (ys : list R),
    verbosity_independent (read_records py_int py_float delimiter src xs ys).
Proof.
  induction src as [| line rest IH]; intros xs ys; simpl; quiet. apply IH.
Qed.

Lemma quiet_cli (x_value : option Z) (sample_count : Z) (delimiter : string)
    (src : list string) :
  verbosity_independent
    (cli curve_fit py_int py_float x_value sample_count delimiter src).
Proof.
  unfold cli. quiet.
  - apply quiet_read_records.
  - apply quiet_complexity_phase.
  - apply quiet_regression_phase.
  - destruct x_value; quiet. apply quiet_predict_phase.
Qed.

(** ** Malformed records *)

Lemma read_records_malformed (delimiter : string) (v : nat) (src : list string) :
  forall (xs : list Z) (ys : list R),
    (exists line, In line src /\ malformed py_int py_float delimiter line) ->
    read_records py_int py_float delimiter src xs ys v = ([], Raise ValueError).
Proof.
  induction src as [| line rest IH]; intros xs ys [bad [Hin Hbad]];
    [destruct Hin |].
  simpl read_records. unfold bind, lift, malformed in *.
  unfold py_split in *.
  destruct (String.eqb delimiter EmptyString); [reflexivity |].
  assert (Hrest : bad = line \/ In bad rest) by (destruct Hin; auto).
  clear Hin.
  destruct (split_from delimiter 0 EmptyString line) as [| a [| b [| c fields]]]
    eqn:Hline; try reflexivity.
  simpl. destruct (py_int a) as [xi |] eqn:Ha; [| reflexivity].
  simpl. destruct (py_float b) as [yi |] eqn:Hb; [| reflexivity].
  simpl.
  assert (Hin : In bad rest).
  { destruct Hrest as [-> | Hr]; [| assumption].
    rewrite Hline, Ha, Hb in Hbad. destruct Hbad; discriminate. }
  rewrite (IH (xs ++ [xi]) (ys ++ [yi])); [reflexivity |].
  exists bad. split; [assumption |].
  destruct (String.eqb delimiter EmptyString); assumption.
Qed.

Lemma read_records_lengths (delimiter : string) (v : nat) (src : list string) :
  forall (xs : list Z) (ys : list R) (xs' : list Z) (ys' : list R),
    outcome (read_records py_int py_float delimiter src xs ys) v = Ok (xs', ys') ->
    List.length xs' = (List.length xs + List.length src)%nat /\
    List.length ys' = (List.length ys + List.length src)%nat.
Proof.
  induction src as [| line rest IH]; intros xs ys xs' ys' H.
  - injection H as <- <-. simpl. lia.
  - simpl read_records in H. rewrite outcome_bind, outcome_lift in H.
    destruct (py_split line delimiter) as [fields | e]; [| discriminate].
    rewrite outcome_bind, outcome_lift in H.
    destruct (unpack_pair fields) as [ab | e]; [| discriminate].
    rewrite outcome_bind, outcome_lift in H.
    destruct (convert (py_int (fst ab))) as [xi | e]; [| discriminate].
    rewrite outcome_bind, outcome_lift in H.
    destruct (convert (py_float (snd ab))) as [yi | e]; [| discriminate].
    apply IH in H. rewrite !length_app in H. simpl in *. lia.
Qed.

End PipelineProperties.

(** C8.  When some record does not split on the delimiter into exactly two
    fields, or its first field is no integer or its second no float, the
    run raises [ValueError] having printed at most the banner of the data
    acquisition: nothing is classified or fitted.  No record is skipped: a
    read that succeeds has taken one size and one duration from every
    record, none of them malformed. *)
Theorem malformed_record_aborts :
  forall (curve_fit : raw_function -> list Z -> list R ->
                      result (list R * list (list R)))
         (py_int : string -> option Z) (py_float : string -> option R)
         (x_value : option Z) (sample_count : Z) (delimiter : string)
         (src : list string) (verbosity : nat),
    ((exists line, In line src /\ malformed py_int py_float delimiter line) ->
     outcome (cli curve_fit py_int py_float x_value sample_count delimiter src)
             verbosity = Raise ValueError /\
     printed (cli curve_fit py_int py_float x_value sample_count delimiter src)
             verbosity =
       (if (2 <=? verbosity)%nat then [Banner ">>> Phase Data Acquisition <<<"]
        else [])) /\
    (forall xs ys,
       outcome (read_records py_int py_float delimiter src [] []) verbosity =
         Ok (xs, ys) ->
       List.length xs = List.length src /\ List.length ys = List.length src /\
       forall line, In line src -> ~ malformed py_int py_float delimiter line).
Proof.
  intros curve_fit py_int py_float x_value n delimiter src v. split.
  - intros Hbad.
    pose proof (read_records_malformed py_int py_float delimiter v src [] [] Hbad)
      as Hread.
    assert (Hverb : verbose (Banner ">>> Phase Data Acquisition <<<") 2 v =
                    ((if (2 <=? v)%nat
                      then [Banner ">>> Phase Data Acquisition <<<"] else []),
                     Ok tt))
      by (unfold verbose; destruct (2 <=? v)%nat; reflexivity).
    unfold outcome, printed, cli.
    rewrite (bind_ok _ _ v _ tt Hverb).
    rewrite (bind_raise _ _ v [] ValueError Hread). simpl.
    rewrite app_nil_r. split; reflexivity.
  - intros xs ys H.
    destruct (read_records_lengths py_int py_float delimiter v src [] [] xs ys H)
      as [Hx Hy].
    split; [exact Hx |]. split; [exact Hy |].
    intros line Hin Hbad.
    unfold outcome in H.
    rewrite (read_records_malformed py_int py_float delimiter v src [] []) in H
      by (exists line; split; assumption).
    discriminate.
Qed.

Lemma malformed_record_aborts_witness :
  (exists line, In line ["1 2 3"%string] /\
                malformed scenario_int scenario_float " " line) /\
  outcome (cli no_fit scenario_int scenario_float None 4 " " ["1 2 3"%string])
          0%nat = Raise ValueError.
Proof.
  assert (Hbad : exists line, In line ["1 2 3"%string] /\
                              malformed scenario_int scenario_float " " line).
  { exists "1 2 3"%string. split; [left; reflexivity | exact I]. }
  split; [exact Hbad |].
  destruct (malformed_record_aborts no_fit scenario_int scenario_float None 4
              " " ["1 2 3"%string] 0%nat) as [Habort _].
  exact (proj1 (Habort Hbad)).
Defined.

(** C9.  The verbosity changes neither what a run returns or raises nor the
    results it prints (the label, the fitted function with its parameters,
    the predicted value), and the label, the fitted parameters and the
    predicted value computed by the three phases do not depend on it. *)
Theorem verbosity_has_no_effect :
  forall (curve_fit : raw_function -> list Z -> list R ->
                      result (list R * list (list R)))
         (py_int : string -> option Z) (py_float : string -> option R)
         (x_value : option Z) (sample_count : Z) (delimiter : string)
         (src : list string) (v1 v2 : nat),
    outcome (cli curve_fit py_int py_float x_value sample_count delimiter src) v1 =
    outcome (cli curve_fit py_int py_float x_value sample_count delimiter src) v2 /\
    results (printed (cli curve_fit py_int py_float x_value sample_count
                          delimiter src) v1) =
    results (printed (cli curve_fit py_int py_float x_value sample_count
                          delimiter src) v2) /\
    (forall x y,
       outcome (complexity_phase x y sample_count) v1 =
       outcome (complexity_phase x y sample_count) v2) /\
    (forall x y label,
       outcome (regression_phase curve_fit x y label) v1 =
       outcome (regression_phase curve_fit x y label) v2) /\
    (forall label x popt,
       outcome (predict_phase label x popt) v1 =
       outcome (predict_phase label x popt) v2).
Proof.
  intros curve_fit py_int py_float x_value n delimiter src v1 v2.
  destruct (quiet_cli curve_fit py_int py_float x_value n delimiter src v1 v2)
    as [Ho Hp].
  split; [exact Ho |]. split; [exact Hp |].
  split; [| split].
  - intros x y. apply (quiet_complexity_phase x y n v1 v2).
  - intros x y label. apply (quiet_regression_phase curve_fit x y label v1 v2).
  - intros label x popt. apply (quiet_predict_phase label x popt v1 v2).
Qed.

(** * Further properties of the code *)

Lemma last_In {A : Type} (l : list A) (d : A) : l <> [] -> In (last l d) l.
Proof.
  induction l as [| a [| b l] IH]; intros H; [contradiction | now left |].
  right. apply IH. discriminate.
Qed.

(** ** Resampling stays inside the data *)

Lemma interp_one_between (xp : list Z) (fp : list R) (guess key : Z) (m M : R) :
  xp <> [] -> List.length xp = List.length fp ->
  (forall e, In e fp -> (m <= e <= M)%R) ->
  (m <= interp_one xp fp guess key <= M)%R.
Proof.
  intros Hne Hlen Hfp.
  assert (Hfne : fp <> []) by (destruct xp, fp; try discriminate; congruence).
  assert (Hnth : forall j, (j < List.length xp)%nat -> (m <= nth j fp 0 <= M)%R).
  { intros j Hj. apply Hfp, nth_In. lia. }
  assert (Hlast : (m <= last fp 0 <= M)%R) by (apply Hfp, last_In, Hfne).
  assert (Hhd : (m <= hd 0 fp <= M)%R).
  { destruct fp as [| f0 fp']; [contradiction |]. apply Hfp. now left. }
  destruct (interp_one_interpolates xp fp guess key Hne Hlen) as [Hi _].
  destruct Hi as [[_ ->] | [(_ & _ & ->) | [(_ & _ & ->) | (j & Hj & [Hlo Hhi] & ->)]]];
    try assumption.
  pose proof (Hnth j ltac:(lia)) as Hfj. pose proof (Hnth (S j) Hj) as Hfj1.
  unfold line_through.
  set (fj := nth j fp 0%R) in *. set (fj1 := nth (S j) fp 0%R) in *.
  set (xj := nth j xp 0) in *. set (xj1 := nth (S j) xp 0) in *.
  assert (HD : (0 < IZR xj1 - IZR xj)%R).
  { apply Rlt_0_minus. apply IZR_lt. lia. }
  assert (HK : (0 <= IZR key - IZR xj)%R).
  { apply Rge_le, Rge_minus, Rle_ge. apply IZR_le. lia. }
  assert (HKD : (IZR key - IZR xj <= IZR xj1 - IZR xj)%R).
  { apply Rplus_le_compat_r. apply IZR_le. lia. }
  set (D := (IZR xj1 - IZR xj)%R) in *. set (K := (IZR key - IZR xj)%R) in *.
  assert (Ht : (0 <= K / D <= 1)%R).
  { split.
    - apply Rmult_le_pos; [assumption | left; now apply Rinv_0_lt_compat].
    - apply Rmult_le_reg_r with (r := D); [assumption |].
      unfold Rdiv. rewrite Rmult_assoc, Rinv_l by lra. lra. }
  replace (fj + (fj1 - fj) * K / D)%R
    with (fj * (1 - K / D) + fj1 * (K / D))%R by (field; lra).
  set (t := (K / D)%R) in *. nra.
Qed.

Lemma resampled_between (x : list Z) (y : list R) (n : Z) (m M v : R) :
  x <> [] -> List.length x = List.length y ->
  (forall e, In e y -> (m <= e <= M)%R) ->
  In v (resampled x y n) -> (m <= v <= M)%R.
Proof.
  intros Hx Hlen Hb Hv.
  destruct (resampled_In x y n v Hv) as (p & guess & _ & ->).
  now apply interp_one_between.
Qed.

(** ** Flat data *)

(** The winner is the first entry unless its own residual is a number. *)
Lemma winner_first_or_finite (x : list Z) (y : list R) (samples : Z) :
  1 <= samples ->
  winner (residuals x y samples) = hd (EmptyString, NaN) (residuals x y samples) \/
  is_fin (snd (winner (residuals x y samples))) = true.
Proof.
  intros Hs.
  destruct (winner_first_minimum x y samples Hs) as (k & Hk & _ & Hfirst).
  destruct k as [| k].
  - left. change (residuals x y samples)
      with (hd (EmptyString, NaN) (residuals x y samples)
            :: tl (residuals x y samples)) in Hk at 1.
    simpl in Hk. now injection Hk.
  - right.
    assert (H0 : nth_error (residuals x y samples) 0 =
                 Some (hd (EmptyString, NaN) (residuals x y samples)))
      by reflexivity.
    pose proof (Hfirst 0%nat _ ltac:(lia) H0) as Hlt.
    destruct (flt_true_left _ _ Hlt) as [Hnan Hpinf].
    pose proof (residuals_not_ninf x y samples _ (nth_error_In _ _ Hk)) as Hninf.
    destruct (snd (winner (residuals x y samples)));
      try reflexivity; try discriminate; congruence.
Qed.

Lemma residual_finite_normalized (x : list Z) (y : list R) (samples : Z)
    (e : string * fl) :
  1 <= samples -> In e (residuals x y samples) -> is_fin (snd e) = true ->
  Forall (fun v => is_fin v = true) (normalized x y samples).
Proof.
  intros Hs Hin Hfin. apply In_nth_error in Hin. destruct Hin as [k Hk].
  destruct e as [l z].
  destruct (residuals_nth _ _ _ _ _ _ Hk) as (f & c & _ & ->).
  simpl in Hfin.
  apply (least_squares_fin_iff samples _ _ _
           (normalized_length x y samples ltac:(lia))) in Hfin.
  tauto.
Qed.

Lemma classify_flat (x : list Z) (y : list R) (samples : Z) :
  usable x y samples ->
  value_or (np_max_R (resampled x y samples)) 0%R =
  value_or (np_min_R (resampled x y samples)) 0%R ->
  classify x y samples = Ok "O(1)"%string.
Proof.
  intros Hu Hflat. pose proof Hu as (_ & _ & Hs).
  rewrite (classify_usable x y samples Hu). f_equal.
  destruct (winner_first_or_finite x y samples Hs) as [-> | Hfin]; [reflexivity |].
  exfalso.
  assert (Hin : In (winner (residuals x y samples)) (residuals x y samples)).
  { unfold winner. apply keep_smaller_In. }
  pose proof (residual_finite_normalized x y samples _ Hs Hin Hfin) as Hall.
  unfold normalized in Hall. rewrite Hflat in Hall.
  pose proof (resampled_length x y samples ltac:(lia)) as Hlen.
  destruct (resampled x y samples) as [| a t] eqn:Hyy; [simpl in Hlen; lia |].
  rewrite Forall_forall in Hall.
  set (nl := normalize (a :: t) (value_or (py_min_R y) 0%R)
               (value_or (np_min_R (a :: t)) 0%R)
               (value_or (np_min_R (a :: t)) 0%R)) in *.
  assert (Hhd : In (hd (Fin 0) nl) nl) by (left; reflexivity).
  pose proof (Hall _ Hhd) as Hf.
  rewrite (normalize_flat _ _ _ _ Hhd) in Hf. discriminate.
Qed.

Lemma constant_extrema (l : list R) (c : R) :
  l <> [] -> (forall e, In e l -> e = c) ->
  value_or (np_max_R l) 0%R = c /\ value_or (np_min_R l) 0%R = c.
Proof.
  intros Hne Hall.
  assert (Hc : In c l).
  { destruct l as [| a t]; [contradiction |]. left. apply Hall. now left. }
  split.
  - rewrite (np_max_R_eq l c); [reflexivity |].
    split; [assumption |]. intros e He. rewrite (Hall e He). lra.
  - rewrite (np_min_R_eq l c); [reflexivity |].
    split; [assumption |]. intros e He. rewrite (Hall e He). lra.
Qed.

Lemma resampled_nonempty (x : list Z) (y : list R) (samples : Z) :
  1 <= samples -> resampled x y samples <> [].
Proof.
  intros Hs H. pose proof (resampled_length x y samples ltac:(lia)) as Hlen.
  rewrite H in Hlen. simpl in Hlen. lia.
Qed.

(** X2. Durations that are all the same are classified O(1). *)
Theorem constant_durations_constant_class :
  forall (sizes : list Z) (durations : list R) (sample_count : Z) (d : R),
    sizes <> [] -> List.length sizes = List.length durations ->
    1 <= sample_count ->
    (forall e, In e durations -> e = d) ->
    classify sizes durations sample_count = Ok "O(1)"%string.
Proof.
  intros x y n d Hx Hlen Hs Hd.
  apply classify_flat; [repeat split; assumption |].
  assert (Hin : In d y).
  { destruct x, y; try contradiction; try discriminate. left. apply Hd. now left. }
  assert (Hall : forall v, In v (resampled x y n) -> v = d).
  { intros v Hv.
    assert (Hb : (d <= v <= d)%R).
    { apply (resampled_between x y n d d v Hx Hlen); [| assumption].
      intros e He. rewrite (Hd e He). lra. }
    lra. }
  destruct (constant_extrema _ d (resampled_nonempty x y n Hs) Hall) as [-> ->].
  reflexivity.
Qed.

Lemma constant_durations_constant_class_witness :
  [1; 2; 4] <> [] /\
  List.length [1; 2; 4] = List.length [5; 5; 5]%R /\
  1 <= 3 /\
  (forall e, In e [5; 5; 5]%R -> e = 5%R) /\
  classify [1; 2; 4] [5; 5; 5]%R 3 = Ok "O(1)"%string.
Proof.
  assert (H1 : [1; 2; 4] <> []) by discriminate.
  assert (H2 : List.length [1; 2; 4] = List.length [5; 5; 5]%R) by reflexivity.
  assert (H3 : 1 <= 3) by lia.
  assert (H4 : forall e, In e [5; 5; 5]%R -> e = 5%R).
  { intros e He. simpl in He. repeat (destruct He as [<- | He]; [reflexivity |]).
    contradiction. }
  repeat (split; [assumption |]).
  exact (constant_durations_constant_class [1; 2; 4] [5; 5; 5]%R 3 5%R H1 H2 H3 H4).
Defined.

(** X3. With a single grid point the answer is O(1), whatever the data. *)
Theorem single_grid_point_constant_class :
  forall (sizes : list Z) (durations : list R),
    sizes <> [] -> List.length sizes = List.length durations ->
    classify sizes durations 1 = Ok "O(1)"%string.
Proof.
  intros x y Hx Hlen.
  apply classify_flat; [repeat split; [assumption | assumption | lia] |].
  pose proof (resampled_length x y 1 ltac:(lia)) as Hl.
  destruct (resampled x y 1) as [| a [| b t]]; try discriminate Hl.
  reflexivity.
Qed.

Lemma single_grid_point_constant_class_witness :
  scenario_sizes <> [] /\
  List.length scenario_sizes = List.length scenario_durations /\
  classify scenario_sizes scenario_durations 1 = Ok "O(1)"%string.
Proof.
  assert (H1 : scenario_sizes <> []) by discriminate.
  assert (H2 : List.length scenario_sizes = List.length scenario_durations)
    by reflexivity.
  repeat (split; [assumption |]).
  exact (single_grid_point_constant_class scenario_sizes scenario_durations H1 H2).
Defined.





(** ** Signs *)

Lemma fold_fadd_squares_not_negative (l : list fl) : forall acc : fl,
  not_negative acc -> not_negative (fold_left fadd (np_square l) acc).
Proof.
  induction l as [| d l IH]; intros acc Hacc; simpl; [assumption |].
  apply IH. destruct acc as [a | | |], d as [r | | |]; simpl in *;
    try exact I; try contradiction.
  nra.
Qed.

(** X5. No residual is negative: each is a real from 0 up, +inf or NaN. *)
Theorem residuals_not_negative :
  forall (norm_x : list Z) (norm_y : list fl) (func : Z -> fl) (coef : fl),
    not_negative (least_squares norm_x norm_y func coef).
Proof.
  intros. unfold least_squares, np_sum.
  apply fold_fadd_squares_not_negative. simpl. lra.
Qed.

(** ** Overflow of the exponential shape *)

(** X7. From 1024 grid points on the classifier never answers O(2^n):
    [np.exp2] overflows at the last index and the residual is NaN. *)
Theorem large_grid_never_exponential :
  forall (sizes : list Z) (durations : list R) (sample_count : Z),
    sizes <> [] -> List.length sizes = List.length durations ->
    1024 <= sample_count ->
    classify sizes durations sample_count <> Ok "O(2^n)"%string.
Proof.
  intros x y n Hx Hlen Hn.
  assert (Hu : usable x y n) by (repeat split; [assumption | assumption | lia]).
  rewrite (classify_usable x y n Hu). intros H. injection H as H.
  destruct (winner_first_or_finite x y n ltac:(lia)) as [Hw | Hfin].
  - rewrite Hw in H. discriminate H.
  - assert (Hin : In (winner (residuals x y n)) (residuals x y n)).
    { unfold winner. apply keep_smaller_In. }
    apply In_nth_error in Hin. destruct Hin as [k Hk].
    destruct (winner (residuals x y n)) as [l z]. simpl in H, Hfin. subst l.
    destruct (residuals_nth _ _ _ _ _ _ Hk) as (f & c & Hc & ->).
    apply (least_squares_fin_iff n _ _ _ (normalized_length x y n ltac:(lia)))
      in Hfin.
    destruct Hfin as [_ Hw].
    apply (well_scaled_condition n k _ f c ltac:(lia) Hc) in Hw.
    destruct k as [| [| [| [| [| [| [| [| k]]]]]]]];
      try (destruct k; discriminate Hc); try discriminate Hc.
    simpl in Hw. lia.
Qed.

Lemma large_grid_never_exponential_witness :
  scenario_sizes <> [] /\
  List.length scenario_sizes = List.length scenario_durations /\
  1024 <= 1024 /\
  classify scenario_sizes scenario_durations 1024 <> Ok "O(2^n)"%string.
Proof.
  assert (H1 : scenario_sizes <> []) by discriminate.
  assert (H2 : List.length scenario_sizes = List.length scenario_durations)
    by reflexivity.
  assert (H3 : 1024 <= 1024) by lia.
  repeat (split; [assumption |]).
  exact (large_grid_never_exponential scenario_sizes scenario_durations 1024
           H1 H2 H3).
Defined.

(** ** The grid *)








(** ** Interpolation on increasing sizes *)




(** ** [REGRESSION_FUNCTIONS] *)

Lemma getitem_missing {A : Type} (d : list (string * A)) (key : string) :
  ~ In key (map fst d) -> getitem d key = Raise KeyError.
Proof.
  induction d as [| [k a] d IH]; intros H; simpl; [reflexivity |].
  destruct (String.eqb k key) eqn:Hk.
  - apply String.eqb_eq in Hk. exfalso. apply H. now left.
  - apply IH. intros Hin. apply H. now right.
Qed.

Lemma getitem_found {A : Type} (d : list (string * A)) (key : string) (a : A) :
  getitem d key = Ok a -> In (key, a) d.
Proof.
  induction d as [| [k b] d IH]; simpl; intros H; [discriminate |].
  destruct (String.eqb k key) eqn:Hk.
  - apply String.eqb_eq in Hk. injection H as <-. subst. now left.
  - right. now apply IH.
Qed.

Ltac each_label H :=
  simpl in H; repeat (destruct H as [<- | H]); try contradiction.

(** X9. A label outside the catalog makes the Predictor and the Fitter raise
    [KeyError]; the Fitter does so without consulting [curve_fit]. *)
Theorem unknown_label_raises :
  forall (curve_fit : raw_function -> list Z -> list R ->
                      result (list R * list (list R)))
         (label : string) (x : Z) (popt : list R) (x_values : list Z)
         (y_values : list R) (verbosity : nat),
    ~ In label catalog_labels ->
    outcome (predict_phase label x popt) verbosity = Raise KeyError /\
    outcome (regression_phase curve_fit x_values y_values label) verbosity =
      Raise KeyError.
Proof.
  intros cf label x popt xs ys v Hn.
  assert (Hg : getitem REGRESSION_FUNCTIONS label = Raise KeyError).
  { apply getitem_missing. now rewrite regression_labels. }
  split.
  - unfold predict_phase.
    rewrite outcome_bind, outcome_verbose, outcome_bind, outcome_lift, Hg.
    reflexivity.
  - unfold regression_phase.
    rewrite outcome_bind, outcome_verbose, outcome_bind, outcome_lift, Hg.
    reflexivity.
Qed.

Lemma unknown_label_raises_witness :
  ~ In "O(n!)"%string catalog_labels /\
  outcome (predict_phase "O(n!)" 16 [1%R]) 0%nat = Raise KeyError /\
  outcome (regression_phase no_fit scenario_sizes scenario_durations "O(n!)")
          0%nat = Raise KeyError.
Proof.
  assert (H1 : ~ In "O(n!)"%string catalog_labels).
  { simpl. intros H. repeat (destruct H as [H | H]; [discriminate H |]).
    contradiction. }
  split; [assumption |].
  exact (unknown_label_raises no_fit "O(n!)" 16 [1%R] scenario_sizes
           scenario_durations 0%nat H1).
Defined.

Lemma predict_phase_outcome (label : string) (x : Z) (popt : list R) (v : nat) :
  outcome (predict_phase label x popt) v =
  match getitem REGRESSION_FUNCTIONS label with
  | Ok entry => fst entry x popt
  | Raise e => Raise e
  end.
Proof.
  unfold predict_phase.
  rewrite outcome_bind, outcome_verbose, outcome_bind, outcome_lift.
  destruct (getitem REGRESSION_FUNCTIONS label); reflexivity.
Qed.

(** X10. For a label of the catalog and a size that fits 64 bits the
    Predictor returns a value exactly when it is given as many parameters as
    the label's function takes (one for O(1), two otherwise), and raises
    [TypeError] when not. *)
Theorem predict_parameter_count :
  forall (label : string) (x : Z) (popt : list R) (verbosity : nat),
    In label catalog_labels -> - 2 ^ 63 <= x < 2 ^ 63 ->
    (List.length popt = arity label ->
     exists t, outcome (predict_phase label x popt) verbosity = Ok t) /\
    (List.length popt <> arity label ->
     outcome (predict_phase label x popt) verbosity = Raise TypeError).
Proof.
  intros label x popt v Hin _. rewrite predict_phase_outcome.
  each_label Hin; simpl;
    (split; intros Hlen;
     [ destruct popt as [| a [| b [| c popt]]]; try discriminate Hlen; eauto
     | destruct popt as [| a [| b [| c popt]]]; try reflexivity;
       exfalso; apply Hlen; reflexivity ]).
Qed.

Lemma predict_parameter_count_witness :
  In "O(n)"%string catalog_labels /\
  - 2 ^ 63 <= 16 < 2 ^ 63 /\
  (List.length [0; 1 / 2]%R = arity "O(n)" ->
   exists t, outcome (predict_phase "O(n)" 16 [0; 1 / 2]%R) 0%nat = Ok t) /\
  (List.length [0; 1 / 2]%R <> arity "O(n)" ->
   outcome (predict_phase "O(n)" 16 [0; 1 / 2]%R) 0%nat = Raise TypeError).
Proof.
  assert (H1 : In "O(n)"%string catalog_labels) by (simpl; tauto).
  assert (H2 : - 2 ^ 63 <= 16 < 2 ^ 63) by lia.
  repeat (split; [assumption |]).
  exact (predict_parameter_count "O(n)" 16 [0; 1 / 2]%R 0%nat H1 H2).
Defined.

(** X11. The three labels with a logarithm predict no finite time at a size
    below 1: [log2] is -inf at 0 and NaN below, and the prediction is then
    infinite or NaN whatever the fitted parameters. *)
Theorem log_prediction_below_one :
  forall (label : string) (x : Z) (a b : R) (t : fl),
    In label log_labels -> - 2 ^ 63 <= x < 1 ->
    predict label x [a; b] = Ok t ->
    is_fin t = false.
Proof.
  intros label x a b t Hin [_ Hx] Hp.
  unfold predict in Hp. rewrite predict_phase_outcome in Hp.
  assert (Hbad : x < 1 -> log2 x = NInf \/ log2 x = NaN).
  { intros Hx'. unfold log2.
    destruct (0 <? x) eqn:H0; [apply Z.ltb_lt in H0; lia |].
    destruct (x =? 0); auto. }
  assert (Hmul : forall r : R, x < 1 -> is_fin (fmul (Fin r) (log2 x)) = false).
  { intros r Hx'. destruct (Hbad Hx') as [-> | ->]; simpl; [| reflexivity].
    destruct (Reqb r 0); [reflexivity |]. now destruct (Rltb r 0). }
  each_label Hin; cbv -[fadd fmul log2 of_Z IZR pow] in Hp;
    match type of Hp with
    | Ok ?e = Ok _ => assert (Ht : t = e) by congruence
    end; subst t; clear Hp;
    match goal with
    | |- is_fin ?e = false => destruct (is_fin e) eqn:H; [exfalso | reflexivity]
    end;
    apply fadd_fin_inv in H; destruct H as [_ H];
    unfold of_Z in H;
    change (fmul (Fin b) (Fin ?r)) with (Fin (b * r)) in H;
    rewrite (Hmul _ Hx) in H; discriminate.
Qed.

Lemma log_prediction_below_one_witness :
  In "O(log n)"%string log_labels /\
  - 2 ^ 63 <= 0 < 1 /\
  predict "O(log n)" 0 [0; 1]%R = Ok (fadd (Fin 0) (fmul (Fin 1) (log2 0))) /\
  is_fin (fadd (Fin 0) (fmul (Fin 1) (log2 0))) = false.
Proof.
  assert (H1 : In "O(log n)"%string log_labels) by (simpl; tauto).
  assert (H2 : - 2 ^ 63 <= 0 < 1) by lia.
  assert (H3 : predict "O(log n)" 0 [0; 1]%R =
               Ok (fadd (Fin 0) (fmul (Fin 1) (log2 0)))) by reflexivity.
  repeat (split; [assumption |]).
  exact (log_prediction_below_one "O(log n)" 0 0%R 1%R _ H1 H2 H3).
Defined.

(** X12. Every label the classifier returns is a key of
    [REGRESSION_FUNCTIONS], with a template of as many fields as its
    function has parameters. *)
Theorem classified_label_is_known :
  forall (sizes : list Z) (durations : list R) (sample_count : Z) (label : string),
    classify sizes durations sample_count = Ok label ->
    exists (f : raw_function) (template : string),
      getitem REGRESSION_FUNCTIONS label = Ok (f, template) /\
      replacement_fields template = arity label.
Proof.
  intros x y n label Hc.
  assert (Hin : In label catalog_labels).
  { destruct (usable_dec x y n) as [Hu | Hu].
    - rewrite (classify_usable x y n Hu) in Hc. injection Hc as <-.
      rewrite <- (residuals_labels x y n). apply in_map.
      unfold winner. apply keep_smaller_In.
    - unfold classify in Hc. rewrite (complexity_phase_unusable x y n 0 Hu) in Hc.
      discriminate. }
  each_label Hin; eexists; eexists; split; reflexivity.
Qed.

Lemma classified_label_is_known_witness :
  classify scenario_sizes scenario_durations 4 = Ok "O(n log n)"%string /\
  exists (f : raw_function) (template : string),
    getitem REGRESSION_FUNCTIONS "O(n log n)" = Ok (f, template) /\
    replacement_fields template = arity "O(n log n)".
Proof.
  split; [exact scenario_winner |].
  exact (classified_label_is_known scenario_sizes scenario_durations 4
           "O(n log n)" scenario_winner).
Defined.

(** ** What a run prints *)

Lemma printed_bind {A B : Type} (m : Run A) (f : A -> Run B) (v : nat) :
  printed (bind m f) v =
  printed m v ++ match outcome m v with
                 | Ok a => printed (f a) v
                 | Raise _ => []
                 end.
Proof.
  unfold printed, outcome, bind. destruct (m v) as [out [a | e]]; simpl.
  - now destruct (f a v).
  - now rewrite app_nil_r.
Qed.

Lemma results_app (a b : list message) : results (a ++ b) = results a ++ results b.
Proof. apply filter_app. Qed.

Lemma silent_ret {A : Type} (p : message -> bool) (a : A) : never_prints p (ret a).
Proof. intros v. constructor. Qed.

Lemma silent_lift {A : Type} (p : message -> bool) (r : result A) :
  never_prints p (lift r).
Proof. intros v. constructor. Qed.

Lemma silent_verbose (p : message -> bool) (msg : message) (level : nat) :
  p msg = false -> never_prints p (verbose msg level).
Proof.
  intros H v. unfold printed, verbose. destruct (level <=? v)%nat; simpl; auto.
Qed.

Lemma silent_bind {A B : Type} (p : message -> bool) (m : Run A) (f : A -> Run B) :
  never_prints p m -> (forall a, never_prints p (f a)) -> never_prints p (bind m f).
Proof.
  intros Hm Hf v. rewrite printed_bind. apply Forall_app. split; [apply Hm |].
  destruct (outcome m v); [apply Hf | constructor].
Qed.

Lemma silent_bind_ok {A B : Type} (p : message -> bool) (m : Run A)
    (f : A -> Run B) :
  never_prints p m ->
  (forall a, (exists v, outcome m v = Ok a) -> never_prints p (f a)) ->
  never_prints p (bind m f).
Proof.
  intros Hm Hf v. rewrite printed_bind. apply Forall_app. split; [apply Hm |].
  destruct (outcome m v) as [a | e] eqn:Ho; [| constructor].
  apply Hf. now exists v.
Qed.

Ltac silent :=
  repeat lazymatch goal with
         | |- never_prints _ (bind _ _) => apply silent_bind; [| intros ?]
         | |- never_prints _ (ret _) => apply silent_ret
         | |- never_prints _ (lift _) => apply silent_lift
         | |- never_prints _ (verbose _ _) => apply silent_verbose; reflexivity
         end.

Lemma never_prints_results {A : Type} (m : Run A) (v : nat) :
  never_prints is_result m -> results (printed m v) = [].
Proof.
  intros H. specialize (H v). unfold results.
  induction (printed m v) as [| msg l IH]; [reflexivity |].
  inversion H as [| ? ? Hm Hl]; subst. simpl. rewrite Hm. now apply IH.
Qed.

Lemma results_verbose_diagnostic (msg : message) (level v : nat) :
  is_result msg = false -> results (printed (verbose msg level) v) = [].
Proof.
  intros H. apply never_prints_results. now apply silent_verbose.
Qed.

Lemma complexity_phase_no_results (p : message -> bool) (x : list Z) (y : list R)
    (samples : Z) :
  (forall text, p (Banner text) = false \/
                text <> ">>> Phase Complexity Check <<<"%string) ->
  (forall xs, p (NormalizedX xs) = false) ->
  (forall ys, p (NormalizedY ys) = false) ->
  (forall res, p (LeastSquaresResults res) = false) ->
  never_prints p (complexity_phase x y samples).
Proof.
  intros Hb Hx Hy Hr. unfold complexity_phase.
  apply silent_bind.
  - apply silent_verbose. destruct (Hb ">>> Phase Complexity Check <<<"%string);
      [assumption | congruence].
  - intros _. repeat (apply silent_bind; [apply silent_lift | intros ?]).
    apply silent_bind; [apply silent_verbose, Hx | intros _].
    apply silent_bind; [apply silent_verbose, Hy | intros _].
    apply silent_bind; [apply silent_verbose, Hr | intros _].
    apply silent_bind; [apply silent_lift | intros ?]. apply silent_ret.
Qed.

Section CliProperties.

Variable curve_fit :
  raw_function -> list Z -> list R -> result (list R * list (list R)).
Variable py_int : string -> option Z.
Variable py_float : string -> option R.

Lemma read_records_prints_nothing (delimiter : string) (v : nat) (src : list string) :
  forall (xs : list Z) (ys : list R),
    printed (read_records py_int py_float delimiter src xs ys) v = [].
Proof.
  induction src as [| line rest IH]; intros xs ys; [reflexivity |].
  simpl read_records.
  rewrite printed_bind, outcome_lift.
  destruct (py_split line delimiter) as [fields | e]; [| reflexivity].
  rewrite printed_bind, outcome_lift.
  destruct (unpack_pair fields) as [ab | e]; [| reflexivity].
  rewrite printed_bind, outcome_lift.
  destruct (convert (py_int (fst ab))) as [xi | e]; [| reflexivity].
  rewrite printed_bind, outcome_lift.
  destruct (convert (py_float (snd ab))) as [yi | e]; [| reflexivity].
  simpl. apply IH.
Qed.

Lemma regression_phase_outcome (x : list Z) (y : list R) (label : string) (v : nat) :
  outcome (regression_phase curve_fit x y label) v =
  match getitem REGRESSION_FUNCTIONS label with
  | Ok entry =>
      match curve_fit (fst entry) x y with
      | Ok fit => Ok (fst fit)
      | Raise e => Raise e
      end
  | Raise e => Raise e
  end.
Proof.
  unfold regression_phase.
  rewrite outcome_bind, outcome_verbose, outcome_bind, outcome_lift.
  destruct (getitem REGRESSION_FUNCTIONS label) as [entry | e]; [| reflexivity].
  rewrite outcome_bind, outcome_lift.
  destruct (curve_fit (fst entry) x y) as [fit | e]; [| reflexivity].
  rewrite outcome_bind, outcome_verbose, outcome_bind, outcome_verbose.
  reflexivity.
Qed.

Lemma regression_phase_no_results (x : list Z) (y : list R) (label : string) :
  never_prints is_result (regression_phase curve_fit x y label).
Proof. unfold regression_phase. silent. Qed.

Lemma predict_phase_no_results (label : string) (x : Z) (popt : list R) :
  never_prints is_result (predict_phase label x popt).
Proof. unfold predict_phase. silent. Qed.

Lemma complexity_phase_outcome_any (x : list Z) (y : list R) (n : Z) (v : nat) :
  outcome (complexity_phase x y n) v = classify x y n.
Proof. apply (quiet_complexity_phase x y n v 0%nat). Qed.

(** The part of [cli] after the records are read. *)
Lemma cli_after_read (x_value : option Z) (n : Z) (delimiter : string)
    (src : list string) (v : nat) (xs : list Z) (ys : list R) :
  outcome (read_records py_int py_float delimiter src [] []) v = Ok (xs, ys) ->
  outcome (cli curve_fit py_int py_float x_value n delimiter src) v =
    match classify xs ys n with
    | Raise e => Raise e
    | Ok label =>
        match outcome (regression_phase curve_fit xs ys label) v with
        | Raise e => Raise e
        | Ok popt =>
            match getitem REGRESSION_FUNCTIONS label with
            | Raise e => Raise e
            | Ok entry =>
                match py_format (snd entry) popt with
                | Raise e => Raise e
                | Ok _ =>
                    match x_value with
                    | None => Ok tt
                    | Some x =>
                        match fst entry x popt with
                        | Ok _ => Ok tt
                        | Raise e => Raise e
                        end
                    end
                end
            end
        end
    end /\
  results (printed (cli curve_fit py_int py_float x_value n delimiter src) v) =
    match classify xs ys n with
    | Raise e => []
    | Ok label =>
        ComplexityEstimation label ::
        match outcome (regression_phase curve_fit xs ys label) v with
        | Raise e => []
        | Ok popt =>
            match getitem REGRESSION_FUNCTIONS label with
            | Raise e => []
            | Ok entry =>
                match py_format (snd entry) popt with
                | Raise e => []
                | Ok formatted =>
                    formatted ::
                    match x_value with
                    | None => []
                    | Some x =>
                        match fst entry x popt with
                        | Ok t => [PredictedExecutionTime t]
                        | Raise e => []
                        end
                    end
                end
            end
        end
    end.
Proof.
  intros Hread. unfold cli. split.
  - rewrite outcome_bind, outcome_verbose, outcome_bind, Hread.
    rewrite outcome_bind, outcome_verbose, outcome_bind, outcome_verbose.
    rewrite outcome_bind, complexity_phase_outcome_any. simpl fst. simpl snd.
    destruct (classify xs ys n) as [label | e]; [| reflexivity].
    rewrite outcome_bind, outcome_verbose, outcome_bind.
    destruct (outcome (regression_phase curve_fit xs ys label) v) as [popt | e];
      [| reflexivity].
    rewrite outcome_bind, outcome_lift.
    destruct (getitem REGRESSION_FUNCTIONS label) as [entry | e] eqn:Hg;
      [| reflexivity].
    rewrite outcome_bind, outcome_lift.
    destruct (py_format (snd entry) popt) as [formatted | e]; [| reflexivity].
    rewrite outcome_bind, outcome_verbose.
    destruct x_value as [x |]; [| reflexivity].
    rewrite outcome_bind, predict_phase_outcome, Hg.
    destruct (fst entry x popt) as [t | e]; [| reflexivity].
    apply outcome_verbose.
  - rewrite printed_bind, outcome_verbose, results_app.
    rewrite results_verbose_diagnostic by reflexivity.
    rewrite printed_bind, Hread, results_app, read_records_prints_nothing.
    cbn [app results filter fst snd].
    rewrite printed_bind, outcome_verbose, results_app.
    rewrite results_verbose_diagnostic by reflexivity.
    rewrite printed_bind, outcome_verbose, results_app.
    rewrite results_verbose_diagnostic by reflexivity.
    rewrite printed_bind, complexity_phase_outcome_any, results_app.
    rewrite (never_prints_results _ v
               (complexity_phase_no_results is_result xs ys n
                  (fun _ => or_introl eq_refl) (fun _ => eq_refl)
                  (fun _ => eq_refl) (fun _ => eq_refl))).
    cbn [app].
    destruct (classify xs ys n) as [label | e]; [| reflexivity].
    rewrite printed_bind, outcome_verbose, results_app.
    change (results (printed (verbose (ComplexityEstimation label) 0) v))
      with [ComplexityEstimation label].
    cbn [app]. f_equal.
    rewrite printed_bind, results_app.
    rewrite (never_prints_results _ v (regression_phase_no_results xs ys label)).
    cbn [app].
    destruct (outcome (regression_phase curve_fit xs ys label) v) as [popt | e];
      [| reflexivity].
    rewrite printed_bind, outcome_lift. cbn [printed lift fst app].
    destruct (getitem REGRESSION_FUNCTIONS label) as [entry | e] eqn:Hg;
      [| reflexivity].
    rewrite printed_bind, outcome_lift. cbn [printed lift fst app].
    destruct (py_format (snd entry) popt) as [formatted | e] eqn:Hf;
      [| reflexivity].
    assert (Hres : is_result formatted = true).
    { unfold py_format in Hf.
      destruct (replacement_fields (snd entry) <=? List.length popt)%nat;
        [| discriminate]. now injection Hf as <-. }
    rewrite printed_bind, outcome_verbose, results_app.
    change (printed (verbose formatted 0) v) with [formatted].
    unfold results at 1. cbn [filter]. rewrite Hres. cbn [app]. f_equal.
    destruct x_value as [x |]; [| reflexivity].
    rewrite printed_bind, results_app.
    rewrite (never_prints_results _ v (predict_phase_no_results label x popt)).
    rewrite predict_phase_outcome, Hg. cbn [app].
    destruct (fst entry x popt) as [t | e]; reflexivity.
Qed.

End CliProperties.

Lemma catalog_entry_fields (label : string) (f : raw_function) (template : string) :
  getitem REGRESSION_FUNCTIONS label = Ok (f, template) ->
  replacement_fields template = arity label /\
  forall (x : Z) (popt : list R),
    List.length popt = arity label -> exists t, f x popt = Ok t.
Proof.
  intros Hg. pose proof (getitem_found _ _ _ Hg) as Hin.
  unfold REGRESSION_FUNCTIONS in Hin. simpl in Hin.
  repeat (destruct Hin as [Hin | Hin];
          [injection Hin as <- <- <-; split; [reflexivity |];
           intros x [| a [| b [| c popt]]] Hlen; try discriminate Hlen; eauto |]).
  contradiction.
Qed.

(** ** Reading the records *)

Section Records.

Variable py_int : string -> option Z.
Variable py_float : string -> option R.
Variable delimiter : string.

Lemma read_records_step (line : string) (rest : list string) (xs : list Z)
    (ys : list R) (v : nat) :
  outcome (read_records py_int py_float delimiter (line :: rest) xs ys) v =
  match py_split line delimiter with
  | Ok [a; b] =>
      match py_int a, py_float b with
      | Some xi, Some yi =>
          outcome (read_records py_int py_float delimiter rest
                     (xs ++ [xi]) (ys ++ [yi])) v
      | _, _ => Raise ValueError
      end
  | _ => Raise ValueError
  end.
Proof.
  simpl read_records. unfold outcome, bind, lift, py_split.
  destruct (String.eqb delimiter EmptyString); [reflexivity |].
  destruct (split_from delimiter 0 EmptyString line) as [| a [| b [| c l]]];
    try reflexivity.
  simpl. destruct (py_int a) as [xi |]; simpl.
  - destruct (py_float b) as [yi |]; simpl; [| reflexivity].
    now destruct (read_records py_int py_float delimiter rest
                    (xs ++ [xi]) (ys ++ [yi]) v).
  - now destruct (py_float b).
Qed.

Lemma read_records_pairs (v : nat) (src : list string) :
  forall (xs0 : list Z) (ys0 : list R) (xs : list Z) (ys : list R),
    outcome (read_records py_int py_float delimiter src xs0 ys0) v = Ok (xs, ys) <->
    exists pairs,
      Forall2 (record_of py_int py_float delimiter) src pairs /\
      xs = xs0 ++ map fst pairs /\ ys = ys0 ++ map snd pairs.
Proof.
  induction src as [| line rest IH]; intros xs0 ys0 xs ys.
  - split.
    + intros H. injection H as <- <-. exists []. rewrite !app_nil_r.
      repeat split. constructor.
    + intros (pairs & HF & -> & ->). inversion HF; subst.
      simpl. now rewrite !app_nil_r.
  - rewrite read_records_step. split.
    + intros H.
      destruct (py_split line delimiter) as [[| a [| b [| c l]]] | e] eqn:Hs;
        try discriminate H.
      destruct (py_int a) as [xi |] eqn:Ha; [| discriminate H].
      destruct (py_float b) as [yi |] eqn:Hb; [| discriminate H].
      apply IH in H. destruct H as (pairs & HF & -> & ->).
      exists ((xi, yi) :: pairs). rewrite <- !app_assoc. repeat split.
      constructor; [| assumption]. exists a, b. auto.
    + intros (pairs & HF & -> & ->).
      inversion HF as [| l0 [xi yi] rest0 pairs0 (a & b & Hs & Ha & Hb) HF']; subst.
      simpl in Ha, Hb. rewrite Hs, Ha, Hb.
      apply IH. exists pairs0. simpl. rewrite <- !app_assoc. auto.
Qed.

Lemma well_formed_record (line : string) :
  ~ malformed py_int py_float delimiter line ->
  exists xy, record_of py_int py_float delimiter line xy.
Proof.
  unfold malformed, record_of. intros H.
  destruct (py_split line delimiter) as [[| a [| b [| c l]]] | e];
    try (exfalso; apply H; exact I).
  destruct (py_int a) as [xi |] eqn:Ha; [| exfalso; apply H; now left].
  destruct (py_float b) as [yi |] eqn:Hb; [| exfalso; apply H; now right].
  exists (xi, yi), a, b. auto.
Qed.

End Records.

Lemma scenario_read (verbosity : nat) :
  outcome (read_records scenario_int scenario_float " " scenario_records [] [])
          verbosity = Ok (scenario_sizes, scenario_durations).
Proof.
  unfold outcome.
  now rewrite (scenario_records_read scenario_int scenario_float verbosity).
Qed.

(** X13. The loop over the records returns the sizes and the durations of
    the records, in their order, exactly when every line splits into two
    fields that [int] and [float] accept. *)
Theorem read_records_content :
  forall (py_int : string -> option Z) (py_float : string -> option R)
         (delimiter : string) (src : list string) (verbosity : nat)
         (xs : list Z) (ys : list R),
    outcome (read_records py_int py_float delimiter src [] []) verbosity =
      Ok (xs, ys) <->
    exists pairs,
      Forall2 (record_of py_int py_float delimiter) src pairs /\
      xs = map fst pairs /\ ys = map snd pairs.
Proof.
  intros. apply (read_records_pairs py_int py_float delimiter verbosity src [] []).
Qed.

(** X14. A run that reads its records, classifies them and fits the label's
    function succeeds and prints as results the label, then the fitted
    function, then, when a query size is given, the predicted time. *)
Theorem cli_success :
  forall (curve_fit : raw_function -> list Z -> list R ->
                      result (list R * list (list R)))
         (py_int : string -> option Z) (py_float : string -> option R)
         (x_value : option Z) (sample_count : Z) (delimiter : string)
         (src : list string) (verbosity : nat)
         (xs : list Z) (ys : list R) (label : string) (f : raw_function)
         (template : string) (popt : list R) (pcov : list (list R)),
    outcome (read_records py_int py_float delimiter src [] []) verbosity =
      Ok (xs, ys) ->
    classify xs ys sample_count = Ok label ->
    getitem REGRESSION_FUNCTIONS label = Ok (f, template) ->
    curve_fit f xs ys = Ok (popt, pcov) ->
    List.length popt = arity label ->
    (forall x, x_value = Some x -> - 2 ^ 63 <= x < 2 ^ 63) ->
    outcome (cli curve_fit py_int py_float x_value sample_count delimiter src)
            verbosity = Ok tt /\
    exists prediction,
      match x_value with
      | None => prediction = []
      | Some x => exists t, f x popt = Ok t /\ prediction = [PredictedExecutionTime t]
      end /\
      results (printed (cli curve_fit py_int py_float x_value sample_count
                            delimiter src) verbosity) =
      ComplexityEstimation label :: RegressionFunction template popt :: prediction.
Proof.
  intros cf pi pf x_value n delim src v xs ys label f template popt pcov
         Hread Hclass Hg Hfit Hlen _.
  destruct (cli_after_read cf pi pf x_value n delim src v xs ys Hread) as [Ho Hp].
  destruct (catalog_entry_fields label f template Hg) as [Hfields Hcall].
  rewrite Hclass, regression_phase_outcome, Hg in Ho, Hp.
  cbn [fst snd] in Ho, Hp. rewrite Hfit in Ho, Hp. cbn [fst] in Ho, Hp.
  unfold py_format in Ho, Hp. rewrite Hfields, Hlen, Nat.leb_refl in Ho, Hp.
  destruct x_value as [x |].
  - destruct (Hcall x popt Hlen) as [t Ht]. rewrite Ht in Ho, Hp.
    split; [exact Ho |]. exists [PredictedExecutionTime t].
    split; [exists t; split; [exact Ht | reflexivity] | exact Hp].
  - split; [exact Ho |]. exists []. split; [reflexivity | exact Hp].
Qed.

Lemma cli_success_witness :
  exists (f : raw_function) (template : string),
    outcome (read_records scenario_int scenario_float " " scenario_records [] [])
            0%nat = Ok (scenario_sizes, scenario_durations) /\
    classify scenario_sizes scenario_durations 4 = Ok "O(n log n)"%string /\
    getitem REGRESSION_FUNCTIONS "O(n log n)" = Ok (f, template) /\
    fixed_fit [0; 1 / 2]%R f scenario_sizes scenario_durations =
      Ok ([0; 1 / 2]%R, []) /\
    List.length [0; 1 / 2]%R = arity "O(n log n)" /\
    (forall x, Some 16 = Some x -> - 2 ^ 63 <= x < 2 ^ 63) /\
    outcome (cli (fixed_fit [0; 1 / 2]%R) scenario_int scenario_float (Some 16) 4
                 " " scenario_records) 0%nat = Ok tt /\
    exists prediction,
      (exists t, f 16 [0; 1 / 2]%R = Ok t /\
                 prediction = [PredictedExecutionTime t]) /\
      results (printed (cli (fixed_fit [0; 1 / 2]%R) scenario_int scenario_float
                            (Some 16) 4 " " scenario_records) 0%nat) =
      ComplexityEstimation "O(n log n)" ::
      RegressionFunction template [0; 1 / 2]%R :: prediction.
Proof.
  eexists. eexists.
  assert (H3 : getitem REGRESSION_FUNCTIONS "O(n log n)" = Ok (_, _))
    by reflexivity.
  assert (H5 : List.length [0; 1 / 2]%R = arity "O(n log n)") by reflexivity.
  assert (H6 : forall x, Some 16 = Some x -> - 2 ^ 63 <= x < 2 ^ 63).
  { intros x Hx. injection Hx as <-. lia. }
  split; [exact (scenario_read 0) |]. split; [exact scenario_winner |].
  split; [exact H3 |]. split; [reflexivity |]. split; [exact H5 |].
  split; [exact H6 |].
  exact (cli_success (fixed_fit [0; 1 / 2]%R) scenario_int scenario_float
           (Some 16) 4 " " scenario_records 0%nat scenario_sizes
           scenario_durations "O(n log n)" _ _ [0; 1 / 2]%R []
           (scenario_read 0) scenario_winner H3 eq_refl H5 H6).
Defined.

(** X15. When [curve_fit] raises, the run raises the same exception after
    printing the label and nothing more of the results: no other label is
    tried. *)
Theorem cli_fit_failure :
  forall (curve_fit : raw_function -> list Z -> list R ->
                      result (list R * list (list R)))
         (py_int : string -> option Z) (py_float : string -> option R)
         (x_value : option Z) (sample_count : Z) (delimiter : string)
         (src : list string) (verbosity : nat)
         (xs : list Z) (ys : list R) (label : string) (f : raw_function)
         (template : string) (e : exception),
    outcome (read_records py_int py_float delimiter src [] []) verbosity =
      Ok (xs, ys) ->
    classify xs ys sample_count = Ok label ->
    getitem REGRESSION_FUNCTIONS label = Ok (f, template) ->
    curve_fit f xs ys = Raise e ->
    outcome (cli curve_fit py_int py_float x_value sample_count delimiter src)
            verbosity = Raise e /\
    results (printed (cli curve_fit py_int py_float x_value sample_count
                          delimiter src) verbosity) =
      [ComplexityEstimation label].
Proof.
  intros cf pi pf x_value n delim src v xs ys label f template e
         Hread Hclass Hg Hfit.
  destruct (cli_after_read cf pi pf x_value n delim src v xs ys Hread) as [Ho Hp].
  rewrite Hclass, regression_phase_outcome, Hg in Ho, Hp.
  cbn [fst snd] in Ho, Hp. rewrite Hfit in Ho, Hp.
  split; assumption.
Qed.

Lemma cli_fit_failure_witness :
  exists (f : raw_function) (template : string),
    outcome (read_records scenario_int scenario_float " " scenario_records [] [])
            0%nat = Ok (scenario_sizes, scenario_durations) /\
    classify scenario_sizes scenario_durations 4 = Ok "O(n log n)"%string /\
    getitem REGRESSION_FUNCTIONS "O(n log n)" = Ok (f, template) /\
    no_fit f scenario_sizes scenario_durations = Raise RuntimeError /\
    outcome (cli no_fit scenario_int scenario_float (Some 16) 4 " "
                 scenario_records) 0%nat = Raise RuntimeError /\
    results (printed (cli no_fit scenario_int scenario_float (Some 16) 4 " "
                          scenario_records) 0%nat) =
      [ComplexityEstimation "O(n log n)"].
Proof.
  eexists. eexists.
  assert (H3 : getitem REGRESSION_FUNCTIONS "O(n log n)" = Ok (_, _))
    by reflexivity.
  split; [exact (scenario_read 0) |]. split; [exact scenario_winner |].
  split; [exact H3 |]. split; [reflexivity |].
  exact (cli_fit_failure no_fit scenario_int scenario_float (Some 16) 4 " "
           scenario_records 0%nat scenario_sizes scenario_durations
           "O(n log n)" _ _ RuntimeError
           (scenario_read 0) scenario_winner H3 eq_refl).
Defined.

(** X16. Records that leave no sample, or a sample count below 1, make the
    run raise [ValueError] before anything is fitted or printed as a result;
    an empty source is the first case. *)
Theorem cli_classification_failure :
  forall (curve_fit : raw_function -> list Z -> list R ->
                      result (list R * list (list R)))
         (py_int : string -> option Z) (py_float : string -> option R)
         (x_value : option Z) (sample_count : Z) (delimiter : string)
         (src : list string) (verbosity : nat),
    src = [] \/ sample_count < 1 ->
    (forall line, In line src -> ~ malformed py_int py_float delimiter line) ->
    outcome (cli curve_fit py_int py_float x_value sample_count delimiter src)
            verbosity = Raise ValueError /\
    results (printed (cli curve_fit py_int py_float x_value sample_count
                          delimiter src) verbosity) = [].
Proof.
  intros cf pi pf x_value n delim src v Hbad Hwell.
  assert (Hread : exists xs ys,
             outcome (read_records pi pf delim src [] []) v = Ok (xs, ys)).
  { assert (Hp : exists pairs, Forall2 (record_of pi pf delim) src pairs).
    { clear Hbad. induction src as [| line rest IH]; [exists []; constructor |].
      destruct (well_formed_record pi pf delim line (Hwell line (or_introl eq_refl)))
        as [xy Hxy].
      destruct (IH (fun l Hl => Hwell l (or_intror Hl))) as [pairs HF].
      exists (xy :: pairs). now constructor. }
    destruct Hp as [pairs HF]. exists (map fst pairs), (map snd pairs).
    apply (read_records_pairs pi pf delim v src [] []). exists pairs. auto. }
  destruct Hread as (xs & ys & Hread).
  destruct (cli_after_read cf pi pf x_value n delim src v xs ys Hread) as [Ho Hp].
  assert (Hc : classify xs ys n = Raise ValueError).
  { unfold classify. apply complexity_phase_unusable. intros (Hx & _ & Hs).
    destruct Hbad as [-> | Hn]; [| lia].
    unfold outcome in Hread. simpl in Hread.
    assert (Hnil : xs = []) by congruence. now apply Hx. }
  rewrite Hc in Ho, Hp. split; assumption.
Qed.

Lemma cli_classification_failure_witness :
  (@nil string = [] \/ 4 < 1) /\
  (forall line, In line [] -> ~ malformed scenario_int scenario_float " " line) /\
  outcome (cli no_fit scenario_int scenario_float None 4 " " []) 0%nat =
    Raise ValueError /\
  results (printed (cli no_fit scenario_int scenario_float None 4 " " []) 0%nat) =
    [].
Proof.
  assert (H1 : @nil string = [] \/ 4 < 1) by (left; reflexivity).
  assert (H2 : forall line, In line [] ->
                 ~ malformed scenario_int scenario_float " " line)
    by (intros line []).
  repeat (split; [assumption |]).
  exact (cli_classification_failure no_fit scenario_int scenario_float None 4 " "
           [] 0%nat H1 H2).
Defined.

(** X17. Without a query size the Predictor is skipped: the run prints
    neither its banner nor a predicted time, at any verbosity. *)
Theorem cli_without_query_skips_prediction :
  forall (curve_fit : raw_function -> list Z -> list R ->
                      result (list R * list (list R)))
         (py_int : string -> option Z) (py_float : string -> option R)
         (sample_count : Z) (delimiter : string) (src : list string),
    never_prints is_prediction
      (cli curve_fit py_int py_float None sample_count delimiter src).
Proof.
  intros cf pi pf n delim src.
  { unfold cli. apply silent_bind; [apply silent_verbose; reflexivity | intros _].
    apply silent_bind.
    - intros v'. rewrite read_records_prints_nothing. constructor.
    - intros data.
      apply silent_bind; [apply silent_verbose; reflexivity | intros _].
      apply silent_bind; [apply silent_verbose; reflexivity | intros _].
      apply silent_bind.
      + apply complexity_phase_no_results; try (intros; reflexivity).
        intros text.
        destruct (string_dec text ">>> Phase Complexity Check <<<") as [-> | Hne];
          [left; reflexivity | right; assumption].
      + intros label.
        apply silent_bind; [apply silent_verbose; reflexivity | intros _].
        apply silent_bind; [unfold regression_phase; silent | intros popt].
        apply silent_bind; [apply silent_lift | intros entry].
        apply silent_bind_ok; [apply silent_lift | intros formatted [v' Hf]].
        rewrite outcome_lift in Hf. unfold py_format in Hf.
        destruct (replacement_fields (snd entry) <=? List.length popt)%nat;
          [| discriminate Hf].
        assert (Hm : formatted = RegressionFunction (snd entry) popt) by congruence.
        subst formatted.
        apply silent_bind; [apply silent_verbose; reflexivity | intros _].
        apply silent_ret. }
Qed.

(** ** Splitting a record *)

Lemma string_app_nil_r (s : string) : (s ++ EmptyString)%string = s.
Proof. induction s as [| c s IH]; simpl; [reflexivity | now rewrite IH]. Qed.

Lemma string_app_assoc (a b c : string) :
  ((a ++ b) ++ c)%string = (a ++ (b ++ c))%string.
Proof. induction a as [| x a IH]; simpl; [reflexivity | now rewrite IH]. Qed.

Lemma prefix_drop (p s : string) :
  String.prefix p s = true ->
  s = (p ++ string_drop (String.length p) s)%string /\
  (String.length p <= String.length s)%nat.
Proof.
  revert s. induction p as [| a p IH]; intros s H; simpl.
  - split; [reflexivity | lia].
  - destruct s as [| b s]; simpl in H; [discriminate |].
    destruct (ascii_dec a b) as [-> | Hne]; [| discriminate].
    destruct (IH s H) as [Heq Hlen]. simpl. split; [now rewrite <- Heq | lia].
Qed.

Lemma split_from_nonempty (sep : string) (s : string) :
  forall (skip : nat) (field : string), split_from sep skip field s <> [].
Proof.
  induction s as [| c s IH]; intros skip field; cbn [split_from]; [discriminate |].
  destruct skip; [| apply IH].
  destruct (String.prefix sep (String c s)); [discriminate | apply IH].
Qed.

Lemma py_join_cons (sep f : string) (rest : list string) :
  rest <> [] -> py_join sep (f :: rest) = (f ++ sep ++ py_join sep rest)%string.
Proof. destruct rest; [contradiction | reflexivity]. Qed.

Lemma split_from_join (sep : string) (s : string) :
  sep <> EmptyString ->
  forall (skip : nat) (field : string),
    (skip <= String.length s)%nat ->
    py_join sep (split_from sep skip field s) = (field ++ string_drop skip s)%string.
Proof.
  intros Hsep. induction s as [| c s IH]; intros skip field Hskip.
  - simpl in Hskip. assert (skip = 0)%nat as -> by lia.
    cbn [split_from py_join string_drop]. now rewrite string_app_nil_r.
  - destruct skip as [| k].
    + cbn [split_from].
      destruct (String.prefix sep (String c s)) eqn:Hp.
      * destruct (prefix_drop _ _ Hp) as [Heq Hlen].
        rewrite py_join_cons by apply split_from_nonempty.
        destruct sep as [| a sep']; [contradiction |].
        simpl String.length in *.
        rewrite IH by lia.
        replace (S (String.length sep') - 1)%nat with (String.length sep') by lia.
        cbn [string_drop] in Heq. cbn [string_drop].
        change (EmptyString ++ string_drop (String.length sep') s)%string
          with (string_drop (String.length sep') s).
        now rewrite <- Heq.
      * rewrite IH by lia. simpl string_drop.
        rewrite string_app_assoc. reflexivity.
    + cbn [split_from string_drop]. apply IH. simpl in Hskip. lia.
Qed.

(** Splitting loses nothing: joining the fields of a record with the
    delimiter gives the record back, and there is always a field. *)
Lemma split_join_round_trip :
  forall (s sep : string) (fields : list string),
    py_split s sep = Ok fields ->
    fields <> [] /\ py_join sep fields = s.
Proof.
  intros s sep fields H. unfold py_split in H.
  destruct (String.eqb sep EmptyString) eqn:He; [discriminate |].
  apply String.eqb_neq in He.
  assert (Hf : fields = split_from sep 0 EmptyString s) by congruence.
  subst fields. split; [apply split_from_nonempty |].
  now rewrite split_from_join by (try assumption; lia).
Qed.

(** X18. A record the loop reads is its size field, the delimiter and its
    duration field joined: the split drops and trims nothing of the line. *)
Theorem accepted_record_shape :
  forall (py_int : string -> option Z) (py_float : string -> option R)
         (delimiter line : string),
    ~ malformed py_int py_float delimiter line ->
    exists (a b : string) (x : Z) (y : R),
      line = (a ++ delimiter ++ b)%string /\
      py_int a = Some x /\ py_float b = Some y.
Proof.
  intros pi pf delim line H.
  destruct (well_formed_record pi pf delim line H) as [[x y] (a & b & Hs & Ha & Hb)].
  destruct (split_join_round_trip line delim [a; b] Hs) as [_ Hj].
  exists a, b, x, y. simpl in Hj. auto.
Qed.

Lemma accepted_record_shape_witness :
  ~ malformed scenario_int scenario_float " " "1 0.5" /\
  exists (a b : string) (x : Z) (y : R),
    "1 0.5"%string = (a ++ " " ++ b)%string /\
    scenario_int a = Some x /\ scenario_float b = Some y.
Proof.
  assert (H1 : ~ malformed scenario_int scenario_float " " "1 0.5").
  { unfold malformed. simpl. intros [H | H]; discriminate H. }
  split; [assumption |].
  exact (accepted_record_shape scenario_int scenario_float " " "1 0.5" H1).
Defined.

(** ** Resampling increasing sizes *)





(** ** Verbosity levels nest *)

Lemma subsequence_refl {A : Type} (l : list A) : subsequence l l.
Proof. induction l; constructor; assumption. Qed.

Lemma subsequence_nil_l {A : Type} (l : list A) : subsequence [] l.
Proof. induction l; constructor; assumption. Qed.

Lemma subsequence_app {A : Type} (a b c d : list A) :
  subsequence a b -> subsequence c d -> subsequence (a ++ c) (b ++ d).
Proof.
  intros Hab Hcd. induction Hab; simpl; try constructor; assumption.
Qed.

Lemma nested_ret {A : Type} (a : A) : nested (ret a).
Proof. intros v1 v2 _. split; [reflexivity | constructor]. Qed.

Lemma nested_lift {A : Type} (r : result A) : nested (lift r).
Proof. intros v1 v2 _. split; [reflexivity | constructor]. Qed.

Lemma nested_verbose (msg : message) (level : nat) : nested (verbose msg level).
Proof.
  intros v1 v2 Hv. rewrite !outcome_verbose. split; [reflexivity |].
  unfold printed, verbose.
  destruct (level <=? v1)%nat eqn:H1, (level <=? v2)%nat eqn:H2; simpl;
    try (repeat constructor).
  apply Nat.leb_le in H1. apply Nat.leb_gt in H2. lia.
Qed.

Lemma nested_bind {A B : Type} (m : Run A) (f : A -> Run B) :
  nested m -> (forall a, nested (f a)) -> nested (bind m f).
Proof.
  intros Hm Hf v1 v2 Hv. destruct (Hm v1 v2 Hv) as [Ho Hp].
  rewrite !outcome_bind, !printed_bind, <- Ho.
  destruct (outcome m v1) as [a | e].
  - destruct (Hf a v1 v2 Hv) as [Ho' Hp']. split; [assumption |].
    now apply subsequence_app.
  - split; [reflexivity |]. apply subsequence_app; [assumption | constructor].
Qed.

Ltac nest :=
  repeat lazymatch goal with
         | |- nested (bind _ _) => apply nested_bind; [| intros ?]
         | |- nested (ret _) => apply nested_ret
         | |- nested (lift _) => apply nested_lift
         | |- nested (verbose _ _) => apply nested_verbose
         end.

(** X20. A run at a higher verbosity prints everything a run at a lower one
    prints, in the same order and with more in between, and ends the same. *)
Theorem verbosity_levels_nest :
  forall (curve_fit : raw_function -> list Z -> list R ->
                      result (list R * list (list R)))
         (py_int : string -> option Z) (py_float : string -> option R)
         (x_value : option Z) (sample_count : Z) (delimiter : string)
         (src : list string) (v1 v2 : nat),
    (v1 <= v2)%nat ->
    outcome (cli curve_fit py_int py_float x_value sample_count delimiter src) v1 =
    outcome (cli curve_fit py_int py_float x_value sample_count delimiter src) v2 /\
    subsequence
      (printed (cli curve_fit py_int py_float x_value sample_count delimiter src) v1)
      (printed (cli curve_fit py_int py_float x_value sample_count delimiter src) v2).
Proof.
  intros cf pi pf x_value n delim src.
  change (nested (cli cf pi pf x_value n delim src)).
  assert (Hread : forall src xs ys, nested (read_records pi pf delim src xs ys)).
  { induction src0 as [| line rest IH]; intros xs ys; simpl; nest. apply IH. }
  unfold cli. nest.
  - apply Hread.
  - unfold complexity_phase. nest.
  - unfold regression_phase. nest.
  - destruct x_value; nest. unfold predict_phase. nest.
Qed.

Lemma verbosity_levels_nest_witness :
  (0 <= 2)%nat /\
  outcome (cli no_fit scenario_int scenario_float (Some 16) 4 " "
               scenario_records) 0%nat =
  outcome (cli no_fit scenario_int scenario_float (Some 16) 4 " "
               scenario_records) 2%nat /\
  subsequence
    (printed (cli no_fit scenario_int scenario_float (Some 16) 4 " "
                  scenario_records) 0%nat)
    (printed (cli no_fit scenario_int scenario_float (Some 16) 4 " "
                  scenario_records) 2%nat).
Proof.
  assert (H1 : (0 <= 2)%nat) by lia.
  split; [assumption |].
  exact (verbosity_levels_nest no_fit scenario_int scenario_float (Some 16) 4 " "
           scenario_records 0%nat 2%nat H1).
Defined.

(** * The resampled curve and the residuals, against the specification *)

(** ** The grid inside the sizes *)



(** ** The residual as a sum of squares *)

Lemma fadd_assoc (a b c : fl) : fadd a (fadd b c) = fadd (fadd a b) c.
Proof.
  destruct a, b, c; simpl; try reflexivity. f_equal. ring.
Qed.

Lemma fadd_zero_comm (a : fl) : fadd (Fin 0) a = fadd a (Fin 0).
Proof. destruct a; simpl; try reflexivity. f_equal. ring. Qed.

Lemma squares_from (norm_y : list fl) (shape : Z -> fl) (coef : fl) :
  forall index : Z,
    fold_right fadd (Fin 0)
      (np_square (np_subtract norm_y
         (rescaled shape coef (arange_from index (List.length norm_y))))) =
    sum_of_squared_residuals index norm_y shape coef.
Proof.
  induction norm_y as [| value rest IH]; intros index; [reflexivity |].
  cbn [List.length arange_from rescaled map np_subtract np_square fold_right
       sum_of_squared_residuals].
  f_equal. apply IH.
Qed.

(** Line 97 of [main.py] computes the specification's sum. *)
Lemma least_squares_sum (n : Z) (norm_y : list fl) (shape : Z -> fl) (coef : fl) :
  List.length norm_y = Z.to_nat n ->
  least_squares (np_arange 1 (n + 1)) norm_y shape coef =
  sum_of_squared_residuals 1 norm_y shape coef.
Proof.
  intros Hlen. unfold least_squares, np_sum, np_arange.
  rewrite (fold_symmetric fadd fadd_assoc (Fin 0) fadd_zero_comm).
  replace (Z.to_nat (n + 1 - 1)) with (List.length norm_y)
    by (rewrite Hlen; f_equal; lia).
  apply squares_from.
Qed.

Lemma Forall2_map_r {A B : Type} (P : A -> B -> Prop) (f : A -> B) (l : list A) :
  (forall a, In a l -> P a (f a)) -> Forall2 P l (map f l).
Proof.
  induction l as [| a l IH]; intros H; simpl; constructor.
  - apply H. now left.
  - apply IH. intros b Hb. apply H. now right.
Qed.

(** ** Interpolation over the pairs as supplied *)


Lemma residuals_sums (x : list Z) (y : list R) (n : Z) :
  1 <= n ->
  Forall2 (fun entry r =>
             fst r = fst entry /\
             snd r = sum_of_squared_residuals 1 (normalized x y n)
                       (fst (snd entry)) (snd (snd entry)))
          (complexity n) (residuals x y n).
Proof.
  intros Hn. unfold residuals, least_squares_results.
  apply Forall2_map_r. intros [label [shape coef]] _. cbn [fst snd].
  split; [reflexivity |].
  apply least_squares_sum. apply normalized_length. lia.
Qed.

(** C4.  On a non-empty sample set with a positive sample count the run
    computes, for each entry of the catalog in its declared order, the sum
    over the grid of the squared differences between the normalized
    y-values and the entry's rescaled shape, and [classify] returns the
    label of the first minimum: no entry's sum is below the returned
    label's, and every label earlier in the order O(1), O(log n), O(n),
    O(n log n), O(n^2), O(n^2 log n), O(n^3), O(2^n) has a strictly larger
    one. *)
Theorem classify_first_minimum :
  forall (sizes : list Z) (durations : list R) (sample_count : Z),
    sizes <> [] -> List.length sizes = List.length durations -> 1 <= sample_count ->
    let norm_y := normalized sizes durations sample_count in
    let res := residuals sizes durations sample_count in
    printed (complexity_phase sizes durations sample_count) 1 =
      [LeastSquaresResults res] /\
    Forall2 (fun entry r =>
               fst r = fst entry /\
               snd r = sum_of_squared_residuals 1 norm_y (fst (snd entry))
                                                (snd (snd entry)))
            (complexity sample_count) res /\
    map fst res =
      ["O(1)"; "O(log n)"; "O(n)"; "O(n log n)"; "O(n^2)"; "O(n^2 log n)";
       "O(n^3)"; "O(2^n)"]%string /\
    exists (k : nat) (label : string) (z : fl),
      classify sizes durations sample_count = Ok label /\
      nth_error res k = Some (label, z) /\
      (forall l' z', In (l', z') res -> flt z' z = false) /\
      (forall j l' z', (j < k)%nat -> nth_error res j = Some (l', z') ->
                       flt z z' = true).
Proof.
  intros x y n Hx Hlen Hs norm_y res.
  assert (Hu : usable x y n) by (repeat split; assumption).
  split.
  { unfold printed. rewrite (complexity_phase_usable x y n 1 Hu). reflexivity. }
  split; [now apply residuals_sums |].
  split; [reflexivity |].
  destruct (winner_first_minimum x y n Hs) as (k & Hk & Hmin & Hfirst).
  fold res in Hk, Hmin, Hfirst.
  exists k, (fst (winner res)), (snd (winner res)).
  split; [now apply classify_usable |].
  split; [now rewrite <- surjective_pairing |].
  split.
  - intros l' z' Hin. apply (Hmin _ Hin).
  - intros j l' z' Hj Hnth. apply (Hfirst j _ Hj Hnth).
Qed.

Lemma classify_first_minimum_witness :
  scenario_sizes <> [] /\
  List.length scenario_sizes = List.length scenario_durations /\
  1 <= 4 /\
  (let norm_y := normalized scenario_sizes scenario_durations 4 in
  let res := residuals scenario_sizes scenario_durations 4 in
  printed (complexity_phase scenario_sizes scenario_durations 4) 1 =
    [LeastSquaresResults res] /\
  Forall2 (fun entry r =>
             fst r = fst entry /\
             snd r = sum_of_squared_residuals 1 norm_y (fst (snd entry))
                                              (snd (snd entry)))
          (complexity 4) res /\
  map fst res =
    ["O(1)"; "O(log n)"; "O(n)"; "O(n log n)"; "O(n^2)"; "O(n^2 log n)";
     "O(n^3)"; "O(2^n)"]%string /\
  exists (k : nat) (label : string) (z : fl),
    classify scenario_sizes scenario_durations 4 = Ok label /\
    nth_error res k = Some (label, z) /\
    (forall l' z', In (l', z') res -> flt z' z = false) /\
    (forall j l' z', (j < k)%nat -> nth_error res j = Some (l', z') ->
                     flt z z' = true)).
Proof.
  assert (H1 : scenario_sizes <> []) by discriminate.
  assert (H2 : List.length scenario_sizes = List.length scenario_durations)
    by reflexivity.
  assert (H3 : 1 <= 4) by lia.
  repeat (split; [assumption |]).
  exact (classify_first_minimum scenario_sizes scenario_durations 4 H1 H2 H3).
Defined.





